(** * CareerHub front-end script (script.js): a shallow embedding

    The script is client-side glue over the DOM.  The development models
    - JavaScript strings as sequences of 8-bit code units (the Latin-1
      range U+0000..U+00FF of UTF-16; the remove glyph U+00D7 lies in it),
      with [toLowerCase], [trim], [includes], [endsWith], [split(',')],
      [replace] and [join] written out;
    - the page as a table of elements plus the nodes the script creates
      (error divs, chips, dropdowns, notifications), the parents of the
      elements and the error divs being located by their path in the tree;
    - handlers as computations over the page that either complete or
      throw, the page mutations made before a throw being kept. *)

From Stdlib Require Import Ascii String NArith DecimalString.
From stdpp Require Import base option list strings.

Local Open Scope N_scope.
Local Open Scope nat_scope.

(** ** JavaScript strings *)

Module Js.

(** Code unit of a character, as a number. *)
Definition code (c : ascii) : N := N_of_ascii c.

(** [String.prototype.toLowerCase] on one code unit of the Latin-1 range:
    A..Z and U+00C0..U+00DE except the multiplication sign U+00D7 move
    up by 32; everything else is its own lower case. *)
Definition lowerChar (c : ascii) : ascii :=
  let n := code c in
  if ((65 <=? n) && (n <=? 90))%N
     || ((192 <=? n) && (n <=? 222) && negb (n =? 215))%N
  then ascii_of_N (n + 32)
  else c.

Fixpoint toLowerCase (s : string) : string :=
  match s with
  | EmptyString => EmptyString
  | String c r => String (lowerChar c) (toLowerCase r)
  end.

(** White space and line terminators stripped by [trim], Latin-1 range:
    TAB, LF, VT, FF, CR, SP and NBSP. *)
Definition isSpace (c : ascii) : bool :=
  let n := code c in
  ((9 <=? n) && (n <=? 13) || (n =? 32) || (n =? 160))%N.

Fixpoint trimStart (s : string) : string :=
  match s with
  | EmptyString => EmptyString
  | String c r => if isSpace c then trimStart r else s
  end.

(** Strips the trailing white space: a character is kept when it is not
    a space or when something is kept after it. *)
Fixpoint trimEnd (s : string) : string :=
  match s with
  | EmptyString => EmptyString
  | String c r =>
      match trimEnd r with
      | EmptyString => if isSpace c then EmptyString else String c EmptyString
      | r' => String c r'
      end
  end.

Definition trim (s : string) : string := trimEnd (trimStart s).

(** [s.length] *)
Definition length (s : string) : nat := String.length s.

(** [s.startsWith(p)] *)
Fixpoint startsWith (s p : string) {struct p} : bool :=
  match p with
  | EmptyString => true
  | String a p' =>
      match s with
      | EmptyString => false
      | String b s' => Ascii.eqb a b && startsWith s' p'
      end
  end.

(** [s.includes(p)]: [p] occurs in [s] at some position. *)
Fixpoint includes (s p : string) : bool :=
  startsWith s p
  || match s with
     | EmptyString => false
     | String _ r => includes r p
     end.

(** [s.endsWith(p)] *)
Fixpoint endsWith (s p : string) : bool :=
  String.eqb s p
  || match s with
     | EmptyString => false
     | String _ r => endsWith r p
     end.

(** [s.split(',')]: never empty, one more segment than there are commas. *)
Fixpoint split_comma (s : string) : list string :=
  match s with
  | EmptyString => [EmptyString]
  | String c r =>
      if Ascii.eqb c ","%char then EmptyString :: split_comma r
      else match split_comma r with
           | seg :: segs => String c seg :: segs
           | [] => [String c EmptyString]
           end
  end.

(** [s.replace(p, r)] with a string pattern: only the first occurrence
    of [p] is replaced. *)
Fixpoint replace (s p r : string) : string :=
  if startsWith s p then r +:+ String.substring (String.length p) (String.length s) s
  else match s with
       | EmptyString => EmptyString
       | String c s' => String c (replace s' p r)
       end.

(** [a.join(sep)] *)
Fixpoint join (sep : string) (a : list string) : string :=
  match a with
  | [] => EmptyString
  | [x] => x
  | x :: rest => x +:+ sep +:+ join sep rest
  end.

(** Truthiness of a string: only the empty string is falsy. *)
Definition truthy (s : string) : bool :=
  match s with EmptyString => false | _ => true end.

End Js.

(** ** The page *)

(** A [File] of a [FileList]: its name and its size in bytes. *)
Record File := mkFile { file_name : string; file_size : N }.

(** A node is located by its path from the body: the label of the child
    taken at each level.  Among the children of one node a smaller label
    comes earlier. *)
Definition Path : Type := list nat.

(** [p] is [q] or an ancestor of [q]. *)
Fixpoint contains (p q : Path) : bool :=
  match p, q with
  | [], _ => true
  | a :: p', b :: q' => (a =? b) && contains p' q'
  | _ :: _, [] => false
  end.

(** Document order: a node comes before its descendants, and everything
    under an earlier child before a later child. *)
Fixpoint precedes (p q : Path) : bool :=
  match p, q with
  | _, [] => false
  | [], _ :: _ => true
  | a :: p', b :: q' => (a <? b) || ((a =? b) && precedes p' q')
  end.

(** The elements the script looks up are kept in one table, in document
    order.  [KInput] is a single-line text [input] (type text, the default),
    [KFileInput] is [input type=file], [KOther] is any element without a
    [value]. *)
Inductive Kind := KInput | KFileInput | KTextarea | KSelect | KOther.

Record Element := mkElement {
  kind : Kind;
  el_id : string;               (* id attribute, empty when absent *)
  el_name : string;             (* name attribute, empty when absent *)
  el_form : option nat;         (* the form the element is a descendant of *)
  el_parent : Path;             (* where its parentNode is *)
  required : bool;              (* presence of the required attribute *)
  text : string;                (* value of a text control *)
  file_list : list File;        (* files of a file chooser *)
  borderColor : string          (* style.borderColor *)
}.

(** A [.field-error] div: the node it is a child of, its label among the
    children of that node, and its text. *)
Record FieldError := mkFieldError { fe_parent : Path; fe_label : nat; fe_text : string }.

Definition fe_path (fe : FieldError) : Path := fe_parent fe ++ [fe_label fe].

(** A [.skill-tag] span: its text node and the text of its remove span. *)
Record Chip := mkChip { chip_text : string; chip_remove : string }.

(** What [showSuggestionsDropdown] receives as [input]. *)
Inductive InputArg := ArgString (s : string) | ArgElement (j : nat).

(** A [.suggestions-dropdown]: its items and the [input] its click
    handlers close over. *)
Record Dropdown := mkDropdown { dd_items : list string; dd_input : InputArg }.

Record Notification := mkNotification { note_message : string; note_type : string }.

(** Badge of the chosen file: [style.display] of [#cv_file_badge], text of
    [#cv_file_name], and whether the [.fab-upload] inside the
    [.cv-input-wrapper] around the chooser carries the class [open]; each
    is [None] when the page has no such element. *)
Record UploadUi := mkUploadUi {
  badgeDisplay : option string;
  fileNameText : option string;
  fabOpen : option bool
}.

(** Presentational nodes the script appends and never reads back. *)
Inductive Decoration :=
| CharCounter (parent : Path)
| CvTips (form : nat).

Inductive Target := OnForm (i : nat) | OnElement (j : nat).
Inductive EventName := EvInput | EvChange | EvSubmit | EvKeydown.

(** The listeners the script registers; the arguments are the variables
    each closure captures. *)
Inductive Handler :=
| HSyncRequired (cvTextarea : nat) (cvFile : option nat)
| HSubmitSync (cvTextarea : nat) (cvFile : option nat)
| HSubmitValidate (form : nat)
| HSuggest
| HKeyCommit
| HCharCounter (counter : Path)
| HFileValidate.

Record Listener := mkListener { l_target : Target; l_event : EventName; l_handler : Handler }.

Record Doc := mkDoc {
  forms : list (option string);       (* action attribute of every form *)
  elements : list Element;
  fieldErrors : list FieldError;      (* the .field-error divs, oldest first *)
  tagsContainer : bool;               (* a .skill-tags-container exists *)
  skillTags : list Chip;              (* the .skill-tag spans, in order *)
  dropdowns : list Dropdown;          (* the .suggestions-dropdown divs *)
  notifications : list Notification;  (* banners appended to the body *)
  upload : UploadUi;
  decorations : list Decoration;
  listeners : list Listener
}.

Definition set_elements (f : list Element → list Element) (d : Doc) : Doc :=
  mkDoc (forms d) (f (elements d)) (fieldErrors d) (tagsContainer d) (skillTags d)
        (dropdowns d) (notifications d) (upload d) (decorations d) (listeners d).
Definition set_fieldErrors (f : list FieldError → list FieldError) (d : Doc) : Doc :=
  mkDoc (forms d) (elements d) (f (fieldErrors d)) (tagsContainer d) (skillTags d)
        (dropdowns d) (notifications d) (upload d) (decorations d) (listeners d).
Definition set_tagsContainer (b : bool) (d : Doc) : Doc :=
  mkDoc (forms d) (elements d) (fieldErrors d) b (skillTags d)
        (dropdowns d) (notifications d) (upload d) (decorations d) (listeners d).
Definition set_skillTags (f : list Chip → list Chip) (d : Doc) : Doc :=
  mkDoc (forms d) (elements d) (fieldErrors d) (tagsContainer d) (f (skillTags d))
        (dropdowns d) (notifications d) (upload d) (decorations d) (listeners d).
Definition set_dropdowns (f : list Dropdown → list Dropdown) (d : Doc) : Doc :=
  mkDoc (forms d) (elements d) (fieldErrors d) (tagsContainer d) (skillTags d)
        (f (dropdowns d)) (notifications d) (upload d) (decorations d) (listeners d).
Definition set_notifications (f : list Notification → list Notification) (d : Doc) : Doc :=
  mkDoc (forms d) (elements d) (fieldErrors d) (tagsContainer d) (skillTags d)
        (dropdowns d) (f (notifications d)) (upload d) (decorations d) (listeners d).
Definition set_upload (f : UploadUi → UploadUi) (d : Doc) : Doc :=
  mkDoc (forms d) (elements d) (fieldErrors d) (tagsContainer d) (skillTags d)
        (dropdowns d) (notifications d) (f (upload d)) (decorations d) (listeners d).
Definition set_decorations (f : list Decoration → list Decoration) (d : Doc) : Doc :=
  mkDoc (forms d) (elements d) (fieldErrors d) (tagsContainer d) (skillTags d)
        (dropdowns d) (notifications d) (upload d) (f (decorations d)) (listeners d).
Definition set_listeners (f : list Listener → list Listener) (d : Doc) : Doc :=
  mkDoc (forms d) (elements d) (fieldErrors d) (tagsContainer d) (skillTags d)
        (dropdowns d) (notifications d) (upload d) (decorations d) (f (listeners d)).

(** [element.value]: the text of a text control, the fake path of the first
    chosen file for a file chooser, [undefined] ([None]) otherwise. *)
Definition value (e : Element) : option string :=
  match kind e with
  | KOther => None
  | KFileInput =>
      Some match file_list e with
           | [] => EmptyString
           | f :: _ => "C:\fakepath\" +:+ file_name f
           end
  | _ => Some (text e)
  end.

(** [element.files]: a [FileList] for a file chooser only. *)
Definition files (e : Element) : option (list File) :=
  match kind e with
  | KFileInput => Some (file_list e)
  | _ => None
  end.

Definition with_required (b : bool) (e : Element) : Element :=
  mkElement (kind e) (el_id e) (el_name e) (el_form e) (el_parent e)
            b (text e) (file_list e) (borderColor e).
Definition with_text (s : string) (e : Element) : Element :=
  mkElement (kind e) (el_id e) (el_name e) (el_form e) (el_parent e)
            (required e) s (file_list e) (borderColor e).
Definition with_file_list (l : list File) (e : Element) : Element :=
  mkElement (kind e) (el_id e) (el_name e) (el_form e) (el_parent e)
            (required e) (text e) l (borderColor e).
Definition with_borderColor (s : string) (e : Element) : Element :=
  mkElement (kind e) (el_id e) (el_name e) (el_form e) (el_parent e)
            (required e) (text e) (file_list e) s.

(** ** Computations over the page *)

(** A handler either completes with a value or throws; in both cases the
    page is left as the statements executed so far made it. *)
Inductive Outcome (A : Type) :=
| Normal (a : A) (d : Doc)
| Throws (error : string) (d : Doc).
Arguments Normal {A} a d.
Arguments Throws {A} error d.

Definition Exec (A : Type) : Type := Doc → Outcome A.

Definition final {A} (o : Outcome A) : Doc :=
  match o with Normal _ d => d | Throws _ d => d end.

Definition completes {A} (o : Outcome A) : bool :=
  match o with Normal _ _ => true | Throws _ _ => false end.

#[global] Instance exec_ret : MRet Exec := λ A a d, Normal a d.
#[global] Instance exec_bind : MBind Exec := λ A B k m d,
  match m d with
  | Normal a d' => k a d'
  | Throws e d' => Throws e d'
  end.

Definition throw {A} (e : string) : Exec A := λ d, Throws e d.
Definition gets {A} (f : Doc → A) : Exec A := λ d, Normal (f d) d.
Definition modify (f : Doc → Doc) : Exec unit := λ d, Normal tt (f d).

(** [array.forEach(callback)], with a value threaded through the calls
    for the variables of the enclosing function the callback assigns. *)
Fixpoint foldM {A B} (f : B → A → Exec B) (b : B) (l : list A) : Exec B :=
  match l with
  | [] => mret b
  | x :: r => b' ← f b x; foldM f b' r
  end.

Definition forEach {A} (f : A → Exec unit) (l : list A) : Exec unit :=
  foldM (λ _ x, f x) tt l.

(** ** Lookups *)

(** First element of the table matching a selector, and all of them. *)
Definition querySelector (p : Element → bool) (d : Doc) : option nat :=
  fst <$> list_find (λ e, Is_true (p e)) (elements d).

Definition matches (p : Element → bool) (d : Doc) (j : nat) : bool :=
  from_option p false (elements d !! j).

Definition querySelectorAll (p : Element → bool) (d : Doc) : list nat :=
  List.filter (matches p d) (seq 0 (length (elements d))).

Definition inForm (i : nat) (e : Element) : bool := bool_decide (el_form e = Some i).

(** [textarea[name="cv_text"]], [#cv_file], [[required]] and
    [input[name="user_skills"]]. *)
Definition isCvTextarea (e : Element) : bool :=
  match kind e with KTextarea => String.eqb (el_name e) "cv_text" | _ => false end.
Definition isCvFile (e : Element) : bool := String.eqb (el_id e) "cv_file".
Definition isRequired (e : Element) : bool := required e.
Definition isSkillsInput (e : Element) : bool :=
  match kind e with
  | KInput | KFileInput => String.eqb (el_name e) "user_skills"
  | _ => false
  end.

Definition within (i : nat) (p : Element → bool) (e : Element) : bool := inForm i e && p e.

(** Dereferencing a node reference; a reference outside the table denotes
    no node and dereferencing it throws, as [null] does. *)
Definition getElement (j : nat) : Exec Element := λ d,
  match elements d !! j with
  | Some e => Normal e d
  | None => Throws "TypeError: null has no properties" d
  end.

Definition updateElement (j : nat) (f : Element → Element) : Exec unit :=
  modify (set_elements (alter f j)).

(** [form.getAttribute('action')] *)
Definition getAction (i : nat) : Exec (option string) := λ d,
  match forms d !! i with
  | Some a => Normal a d
  | None => Throws "TypeError: null has no properties" d
  end.

Definition isAnalyze (a : option string) : bool :=
  match a with Some s => String.eqb s "/analyze" | None => false end.

(** [target.addEventListener(event, handler)] *)
Definition addEventListener (t : Target) (ev : EventName) (h : Handler) : Exec unit :=
  modify (set_listeners (λ ls, ls ++ [mkListener t ev h])).

(** [cvFile && cvFile.files && cvFile.files.length > 0] *)
Definition hasFileOf (cvFile : option nat) (d : Doc) : bool :=
  match cvFile with
  | None => false
  | Some j =>
      match elements d !! j with
      | Some e => match files e with Some (_ :: _) => true | _ => false end
      | None => false
      end
  end.

(** ** Form validation (script.js lines 19-109) *)

(** [field.value.trim()]; reading [trim] off an [undefined] value throws. *)
Definition trimmedValue (j : nat) : Exec string :=
  e ← getElement j;
  match value e with
  | Some v => mret (Js.trim v)
  | None => throw "TypeError: field.value is undefined"
  end.

(** [parent.querySelector('.field-error')]: among the error divs that are
    descendants of [parent], the first one in document order, with its
    index in the list. *)
Fixpoint firstError (parent : Path) (l : list FieldError) : option (nat * FieldError) :=
  match l with
  | [] => None
  | fe :: rest =>
      match firstError parent rest with
      | Some (k, fe') =>
          if contains parent (fe_parent fe) && negb (precedes (fe_path fe') (fe_path fe))
          then Some (0, fe)
          else Some (S k, fe')
      | None => if contains parent (fe_parent fe) then Some (0, fe) else None
      end
  end.

(** [existingError.remove()] when the query found one. *)
Definition removeFirstError (parent : Path) (l : list FieldError) : list FieldError :=
  match firstError parent l with
  | Some (k, _) => delete k l
  | None => l
  end.

(** The paths the page keeps track of: the parents of the elements of the
    table and the error divs. *)
Definition tracked (d : Doc) : list Path :=
  map el_parent (elements d) ++ map fe_path (fieldErrors d).

(** The label, under [p], of the child of [p] that is or contains [q]. *)
Definition childLabel (p q : Path) : option nat :=
  if contains p q then q !! length p else None.

(** [parent.appendChild(node)] makes the node the last child: its label is
    greater than the label of every child the parent has. *)
Definition nextLabel (p : Path) (d : Doc) : nat :=
  max_list (S <$> omap (childLabel p) (tracked d)).

Definition appendErrorDiv (parent : Path) (message : string) (d : Doc) : Doc :=
  set_fieldErrors (λ l, l ++ [mkFieldError parent (nextLabel parent d) message]) d.

Definition clearFieldError (field : nat) : Exec unit :=
  e ← getElement field;
  modify (set_fieldErrors (removeFirstError (el_parent e)));;
  updateElement field (with_borderColor "").

Definition showFieldError (field : nat) (message : string) : Exec unit :=
  clearFieldError field;;
  e ← getElement field;
  modify (appendErrorDiv (el_parent e) message);;
  updateElement field (with_borderColor "#e74c3c").

(** Body of the [requiredFields.forEach] callback; [isValid] is the
    variable of [validateForm] it assigns. *)
Definition validateField (isValid : bool) (field : nat) : Exec bool :=
  v ← trimmedValue field;
  if negb (Js.truthy v) then
    showFieldError field "This field is required";; mret false
  else
    clearFieldError field;; mret isValid.

(** The text-or-file rule of the analyze form, lines 71-84. *)
Definition textOrFileRule (form : nat) (isValid : bool) : Exec bool :=
  d ← gets id;
  match querySelector (within form isCvTextarea) d with
  | None => throw "TypeError: cvTextarea is null"
  | Some cvTextarea =>
      cvText ← trimmedValue cvTextarea;
      d ← gets id;
      let cvFile := querySelector (within form isCvFile) d in
      let hasFile := hasFileOf cvFile d in
      let hasText := 0 <? Js.length cvText in
      if negb hasFile && negb hasText then
        updateElement cvTextarea (with_required true);; mret false
      else
        updateElement cvTextarea (with_required false);; mret isValid
  end.

Definition validateForm (form : nat) : Exec bool :=
  d ← gets id;
  let requiredFields := querySelectorAll (within form isRequired) d in
  isValid ← foldM validateField true requiredFields;
  action ← getAction form;
  if isAnalyze action then textOrFileRule form isValid
  else mret isValid.

(** [syncRequired], lines 27-35, over the two references it captures. *)
Definition syncRequired (cvTextarea : nat) (cvFile : option nat) : Exec unit :=
  t ← trimmedValue cvTextarea;
  d ← gets id;
  let hasText := 0 <? Js.length t in
  let hasFile := hasFileOf cvFile d in
  if hasText || hasFile then updateElement cvTextarea (with_required false)
  else updateElement cvTextarea (with_required true).

(** The submit listener of lines 43-53; the result is whether it called
    [e.preventDefault()]. *)
Definition submitValidate (form : nat) : Exec bool :=
  ok ← validateForm form;
  if negb ok then
    action ← getAction form;
    if negb (isAnalyze action) then mret true else mret false
  else mret false.

(** Body of the [forms.forEach] callback of [initializeFormValidation]. *)
Definition setupForm (form : nat) : Exec unit :=
  action ← getAction form;
  (if isAnalyze action then
     d ← gets id;
     let cvTextarea := querySelector (within form isCvTextarea) d in
     let cvFile := querySelector (within form isCvFile) d in
     match cvTextarea with
     | None => throw "TypeError: cvTextarea is null"
     | Some ta =>
         addEventListener (OnElement ta) EvInput (HSyncRequired ta cvFile);;
         match cvFile with
         | None => throw "TypeError: cvFile is null"
         | Some cf =>
             addEventListener (OnElement cf) EvChange (HSyncRequired ta cvFile);;
             addEventListener (OnForm form) EvSubmit (HSubmitSync ta cvFile)
         end
     end
   else mret tt);;
  addEventListener (OnForm form) EvSubmit (HSubmitValidate form).

Definition initializeFormValidation : Exec unit :=
  d ← gets id;
  forEach setupForm (seq 0 (length (forms d))).

(** ** Notifications (lines 491-522) *)

(** The banner is appended to the body; the timers that fade it out later
    are outside the model, so [notifications] records every banner shown. *)
Definition showNotification (message type : string) : Exec unit :=
  modify (set_notifications (λ l, l ++ [mkNotification message type])).

(** ** Skill tags and suggestions (lines 162-308) *)

Definition vocabulary : list string :=
  [ "Python"; "JavaScript"; "Java"; "C++"; "C#"; "PHP"; "Ruby"; "Swift"; "Kotlin";
    "HTML"; "CSS"; "React"; "Angular"; "Vue.js"; "Node.js"; "Django"; "Flask";
    "MySQL"; "PostgreSQL"; "MongoDB"; "SQLite"; "Oracle";
    "Git"; "Docker"; "AWS"; "Azure"; "Linux"; "Windows"; "MacOS";
    "Communication"; "Teamwork"; "Problem Solving"; "Leadership"; "Time Management" ].

(** The text [' ×'] of the remove control: a space and U+00D7. *)
Definition removeGlyph : string := String " " (String "215" EmptyString).

(** [element.textContent] of a chip: its text node, then its remove span. *)
Definition textContent (c : Chip) : string := chip_text c +:+ chip_remove c.

(** What a single-line text input keeps of an assigned value: line feeds
    and carriage returns are stripped. *)
Definition isLineBreak (c : ascii) : bool := ((Js.code c =? 10) || (Js.code c =? 13))%N.

Fixpoint stripNewlines (s : string) : string :=
  match s with
  | EmptyString => EmptyString
  | String c r => if isLineBreak c then stripNewlines r else String c (stripNewlines r)
  end.

(** What a textarea gives back of an assigned value: every CR LF pair and
    every other CR has become a LF. *)
Fixpoint normalizeNewlines (s : string) : string :=
  match s with
  | EmptyString => EmptyString
  | String c r =>
      if (Js.code c =? 13)%N then
        String "010" match r with
                     | String c' r' =>
                         if (Js.code c' =? 10)%N then normalizeNewlines r'
                         else normalizeNewlines r
                     | EmptyString => EmptyString
                     end
      else String c (normalizeNewlines r)
  end.

(** [element.value = v]; a file chooser accepts only the empty string, a
    text input strips the line breaks, a textarea normalises them. *)
Definition setValue (j : nat) (v : string) : Exec unit :=
  e ← getElement j;
  match kind e with
  | KFileInput =>
      match v with
      | EmptyString => updateElement j (with_file_list [])
      | _ => throw "InvalidStateError"
      end
  | KInput => updateElement j (with_text (stripNewlines v))
  | KTextarea => updateElement j (with_text (normalizeNewlines v))
  | _ => updateElement j (with_text v)
  end.

(** The predicate of [suggestions.filter] in [showSkillSuggestions]. *)
Definition alreadyEntered (input skill : string) : bool :=
  existsb (λ entered, String.eqb (Js.toLowerCase (Js.trim entered)) (Js.toLowerCase skill))
          (Js.split_comma input).

Definition suggestible (input skill : string) : bool :=
  Js.includes (Js.toLowerCase skill) (Js.toLowerCase input)
  && negb (alreadyEntered input skill).

Definition filtered (input : string) : list string :=
  List.filter (suggestible input) vocabulary.

Definition hideSuggestionsDropdown : Exec unit :=
  modify (set_dropdowns (λ l, match l with [] => [] | _ :: r => r end)).

(** The dropdown element [showSuggestionsDropdown] builds: one item for
    each of [suggestions.slice(0, 5)]. *)
Definition buildDropdown (suggestions : list string) (input : InputArg) : Dropdown :=
  mkDropdown (take 5 suggestions) input.

(** Lines 204-247.  The dropdown is attached through [input.parentNode];
    a string has no [parentNode], so reading [style] off it throws. *)
Definition showSuggestionsDropdown (suggestions : list string) (input : InputArg) : Exec unit :=
  hideSuggestionsDropdown;;
  let dropdown := buildDropdown suggestions input in
  match input with
  | ArgString _ => throw "TypeError: input.parentNode is undefined"
  | ArgElement j =>
      _ ← getElement j;
      modify (set_dropdowns (λ l, l ++ [dropdown]))
  end.

Definition showSkillSuggestions (input : string) : Exec unit :=
  let filtered := filtered input in
  if (0 <? length filtered) && (1 <? Js.length input) then
    showSuggestionsDropdown filtered (ArgString input)
  else
    hideSuggestionsDropdown.

Definition updateSkillsInput : Exec unit :=
  d ← gets id;
  let skills := map (λ tag, Js.replace (textContent tag) removeGlyph "") (skillTags d) in
  match querySelector isSkillsInput d with
  | None => throw "TypeError: skillsInput is null"
  | Some skillsInput => setValue skillsInput (Js.join ", " skills)
  end.

Definition createSkillTagsContainer : Exec unit :=
  d ← gets id;
  match querySelector isSkillsInput d with
  | None => throw "TypeError: skillsInput is null"
  | Some _ => modify (set_tagsContainer true)
  end.

Definition addSkillTag (skill : string) : Exec unit :=
  if negb (Js.truthy skill) then mret tt
  else
    d ← gets id;
    (if tagsContainer d then mret tt else createSkillTagsContainer);;
    modify (set_skillTags (λ l, l ++ [mkChip skill removeGlyph]));;
    updateSkillsInput.

(** Click on the remove control of the [k]-th chip of the page. *)
Definition removeTag (k : nat) : Exec unit :=
  modify (set_skillTags (delete k));;
  updateSkillsInput.

(** Click on the [n]-th item of the [k]-th dropdown of the page.  The
    assignment [input.value = ''] changes nothing when [input] is a string. *)
Definition suggestionClick (k n : nat) : Exec unit :=
  d ← gets id;
  match dropdowns d !! k with
  | None => mret tt
  | Some dd =>
      match dd_items dd !! n with
      | None => mret tt
      | Some skill =>
          addSkillTag skill;;
          match dd_input dd with
          | ArgString _ => mret tt
          | ArgElement j => setValue j ""
          end;;
          hideSuggestionsDropdown
      end
  end.

(** The [input] listener of the skills input, line 168. *)
Definition onSkillsInput (this : nat) : Exec unit :=
  e ← getElement this;
  match value e with
  | Some v => showSkillSuggestions v
  | None => throw "TypeError: input is undefined"
  end.

(** The [keydown] listener, lines 173-179; the result is whether it
    called [e.preventDefault()]. *)
Definition onSkillsKeydown (this : nat) (key : string) : Exec bool :=
  if String.eqb key "Enter" || String.eqb key "," then
    e ← getElement this;
    match value e with
    | Some v =>
        addSkillTag (Js.trim v);;
        setValue this "";;
        mret true
    | None => throw "TypeError: this.value is undefined"
    end
  else mret false.

Definition initializeJobMatching : Exec unit :=
  d ← gets id;
  match querySelector isSkillsInput d with
  | Some skillsInput =>
      addEventListener (OnElement skillsInput) EvInput HSuggest;;
      addEventListener (OnElement skillsInput) EvKeydown HKeyCommit
  | None => mret tt
  end.

(** ** CV analysis (lines 311-342 and 421-449) *)

Definition showCVTips : Exec unit :=
  d ← gets id;
  match list_find (λ a, Is_true (isAnalyze a)) (forms d) with
  | None => throw "TypeError: cvForm is null"
  | Some (cvForm, _) => modify (set_decorations (λ l, l ++ [CvTips cvForm]))
  end.

Definition initializeCVAnalysis : Exec unit :=
  d ← gets id;
  match querySelector isCvTextarea d with
  | Some cvTextarea =>
      e ← getElement cvTextarea;
      modify (set_decorations (λ l, l ++ [CharCounter (el_parent e)]));;
      addEventListener (OnElement cvTextarea) EvInput (HCharCounter (el_parent e));;
      showCVTips
  | None => mret tt
  end.

(** ** File validation (lines 345-377) *)

Definition maxFileSize : N := (8 * 1024 * 1024)%N.

Definition nameAllowed (name : string) : bool :=
  Js.endsWith (Js.toLowerCase name) ".pdf" || Js.endsWith (Js.toLowerCase name) ".docx".

(** The badge is touched only when both of its elements exist. *)
Definition showBadge (name : string) (u : UploadUi) : UploadUi :=
  match badgeDisplay u, fileNameText u with
  | Some _, Some _ => mkUploadUi (Some "inline-flex") (Some name) (fabOpen u)
  | _, _ => u
  end.

Definition closeFab (u : UploadUi) : UploadUi :=
  match fabOpen u with
  | Some true => mkUploadUi (badgeDisplay u) (fileNameText u) (Some false)
  | _ => u
  end.

(** The [change] listener of the file chooser. *)
Definition onFileChange (this : nat) : Exec unit :=
  e ← getElement this;
  match files e with
  | Some (file :: _) =>
      if negb (nameAllowed (file_name file)) then
        showNotification "Only PDF or DOCX files are accepted." "error";;
        setValue this ""
      else if (maxFileSize <? file_size file)%N then
        showNotification "File is too large (max 8MB)." "error";;
        setValue this ""
      else
        showNotification ("File selected: " +:+ file_name file) "success";;
        modify (set_upload (showBadge (file_name file)));;
        modify (set_upload closeFab)
  | _ => mret tt
  end.

Definition initializeFileValidation : Exec unit :=
  d ← gets id;
  match querySelector isCvFile d with
  | None => mret tt
  | Some fileInput => addEventListener (OnElement fileInput) EvChange HFileValidate
  end.

(** ** Observations *)

(** The value of the input named [user_skills], the backing field. *)
Definition backingField (d : Doc) : option string :=
  j ← querySelector isSkillsInput d; e ← elements d !! j; value e.

(** What [updateSkillsInput] writes. *)
Definition serialized (tags : list Chip) : string :=
  Js.join ", " (map (λ tag, Js.replace (textContent tag) removeGlyph "") tags).

(** The page has a text input named [user_skills]. *)
Definition skillsInputAt (d : Doc) (j : nat) : Prop :=
  querySelector isSkillsInput d = Some j
  ∧ ∃ e, elements d !! j = Some e ∧ kind e = KInput.

(** The element is a control: it has a [value]. *)
Definition hasValue (d : Doc) (j : nat) : Prop :=
  ∃ e v, elements d !! j = Some e ∧ value e = Some v.

(** Form [i] exists and, when it is the analyze form, contains its CV
    textarea and its file chooser. *)
Definition formComplete (d : Doc) (i : nat) : Prop :=
  ∃ a, forms d !! i = Some a
       ∧ (isAnalyze a = true →
          is_Some (querySelector (within i isCvTextarea) d)
          ∧ is_Some (querySelector (within i isCvFile) d)).

(** [!field.value.trim()] *)
Definition isBlank (e : Element) : bool :=
  match value e with
  | Some v => negb (Js.truthy (Js.trim v))
  | None => false
  end.

(** Two elements that differ at most in their border colour. *)
Definition sameButBorder (e e' : Element) : Prop :=
  with_borderColor "" e = with_borderColor "" e'.

(** What the validation loop can change: error divs and border colours. *)
Definition loopRel (d d' : Doc) : Prop :=
  forms d' = forms d
  ∧ ∀ j, match elements d !! j, elements d' !! j with
         | Some e, Some e' => sameButBorder e e'
         | None, None => True
         | _, _ => False
         end.

(** ** The serialisation of the specification *)

(** The serialisation the specification describes: the text of each chip
    with the remove glyph stripped from its end, joined with [", "]. *)
Definition stripTrailingGlyph (s : string) : string :=
  if Js.endsWith s removeGlyph
  then String.substring 0 (String.length s - String.length removeGlyph) s
  else s.

Definition joinedChipTexts (tags : list Chip) : string :=
  Js.join ", " (map (λ tag, stripTrailingGlyph (textContent tag)) tags).


(** ** A session on the skills widget *)

(** What can happen to the skills widget between two observations. *)
Inductive Action :=
| AddSkillTag (skill : string)      (* a call of addSkillTag, also through window.CareerHub *)
| ClickRemove (k : nat)             (* click on the remove control of chip k *)
| TypeText (v : string)             (* the user types or pastes v over the skills input *)
| PressKey (key : string)           (* keydown in the skills input *)
| ClickSuggestion (k n : nat)       (* click on item n of dropdown k *)
| ShowDropdown (suggestions : list string) (input : InputArg)
| HideDropdown.

(** The listeners of the skills input are the ones registered by
    [initializeJobMatching], which exist when the input does.  Of a text
    that is typed or pasted the input keeps no line break. *)
Definition perform (a : Action) : Exec unit :=
  match a with
  | AddSkillTag skill => addSkillTag skill
  | ClickRemove k => removeTag k
  | TypeText v =>
      d ← gets id;
      match querySelector isSkillsInput d with
      | Some j => updateElement j (with_text (stripNewlines v));; onSkillsInput j
      | None => mret tt
      end
  | PressKey key =>
      d ← gets id;
      match querySelector isSkillsInput d with
      | Some j => _ ← onSkillsKeydown j key; mret tt
      | None => mret tt
      end
  | ClickSuggestion k n => suggestionClick k n
  | ShowDropdown suggestions input => showSuggestionsDropdown suggestions input
  | HideDropdown => hideSuggestionsDropdown
  end.

(** The page after an action, whether its handler completed or threw. *)
Definition step (d : Doc) (a : Action) : Doc := final (perform a d).

(** The page after a sequence of actions. *)
Definition run (actions : list Action) (d : Doc) : Doc := foldl step d actions.


(** ** Sample pages *)

(** A page with a match form holding the skills input. *)
Definition samplePage : Doc :=
  mkDoc [Some "/match"]
        [mkElement KInput "" "user_skills" (Some 0) [7] true "" [] ""]
        [] false [] [] [] (mkUploadUi None None None) [] [].

(** The same page with a white-space-only text in the required input. *)
Definition matchPage : Doc :=
  mkDoc [Some "/match"]
        [mkElement KInput "" "user_skills" (Some 0) [7] true "  " [] ""]
        [] false [] [] [] (mkUploadUi None None None) [] [].

(** A page with the analyze form: CV textarea, file chooser and badge. *)
Definition analyzePage : Doc :=
  mkDoc [Some "/analyze"]
        [mkElement KTextarea "" "cv_text" (Some 0) [1] true "" [] "";
         mkElement KFileInput "cv_file" "cv_file" (Some 0) [2] false "" [] ""]
        [] false [] [] [] (mkUploadUi (Some "none") (Some "") (Some false)) [] [].

(** The analyze page after a file of the given name and size was chosen. *)
Definition chosen (name : string) (size : N) : Doc :=
  set_elements (alter (with_file_list [mkFile name size]) 1) analyzePage.

(** An analyze form with its textarea but without the [#cv_file] chooser. *)
Definition pageWithoutChooser : Doc :=
  mkDoc [Some "/analyze"; Some "/match"]
        [mkElement KTextarea "" "cv_text" (Some 0) [1] true "" [] "";
         mkElement KInput "" "user_skills" (Some 1) [2] true "" [] ""]
        [] false [] [] [] (mkUploadUi None None None) [] [].

(** A CV textarea on a page that has no form with action /analyze. *)
Definition pageWithoutAnalyzeForm : Doc :=
  mkDoc [Some "/upload"]
        [mkElement KTextarea "" "cv_text" (Some 0) [1] false "" [] ""]
        [] false [] [] [] (mkUploadUi None None None) [] [].

(** A page without the [user_skills] input. *)
Definition pageWithoutSkillsInput : Doc :=
  mkDoc [Some "/skills"] [] [] false [] [] [] (mkUploadUi None None None) [] [].

(** The skill ["a ×b"], which contains the glyph. *)
Definition glyphSkill : string := "a" +:+ removeGlyph +:+ "b".

(** ** Removing the chosen file (lines 409-419) *)

(** [nameEl.textContent = ''] and [badge.style.display = 'none'], each
    where the element exists. *)
Definition hideBadge (u : UploadUi) : UploadUi :=
  mkUploadUi (match badgeDisplay u with Some _ => Some "none" | None => None end)
             (match fileNameText u with Some _ => Some "" | None => None end)
             (fabOpen u).

(** The click listener of the document; [onRemove] tells whether the
    clicked element lies in [#cv_file_remove]. *)
Definition onDocumentClick (onRemove : bool) : Exec unit :=
  if negb onRemove then mret tt
  else
    d ← gets id;
    match querySelector isCvFile d with
    | Some fileInput => setValue fileInput ""
    | None => mret tt
    end;;
    modify (set_upload hideBadge);;
    showNotification "File removed. You can upload a different file." "info".

(** ** Skills assessment (lines 112-159) *)

(** The part of the page the skills assessment reads and writes besides
    the forms and the notifications: the checked state of every
    [input[name="skills"]], where the first [button] of the skills form is
    (a child of the form, deeper inside it, or absent), the text of every
    [.skill-counter] of the document, and the listeners it registers. *)
Inductive ButtonPlace := NoButton | ChildButton | NestedButton.

Inductive AssessTarget := OnSkillsForm (i : nat) | OnCheckbox (k : nat).

Record Assessment := mkAssessment {
  as_doc : Doc;
  as_checked : list bool;
  as_button : ButtonPlace;
  as_counters : list string;
  as_listeners : list AssessTarget
}.


(** A step of the assessment code: it completes with a value or throws. *)
Inductive Result (A : Type) :=
| Done (a : A) (st : Assessment)
| Raised (error : string) (st : Assessment).
Arguments Done {A} a st.
Arguments Raised {A} error st.

Definition after {A} (r : Result A) : Assessment :=
  match r with Done _ st => st | Raised _ st => st end.












(** ** Further observations *)

(** Number of error divs that are descendants of a node. *)
Definition errorsUnder (parent : Path) (l : list FieldError) : nat :=
  length (List.filter (λ fe, contains parent (fe_parent fe)) l).

(** The parent nodes of the required fields of a form. *)
Definition requiredParents (form : nat) (d : Doc) : list Path :=
  omap (λ j, el_parent <$> elements d !! j) (querySelectorAll (within form isRequired) d).


Definition requiredAt (d : Doc) (j : nat) : option bool := required <$> elements d !! j.

Definition borderAt (d : Doc) (j : nat) : option string := borderColor <$> elements d !! j.

(** The trimmed value of the element is empty. *)
Definition blankAt (d : Doc) (j : nat) : bool := from_option isBlank false (elements d !! j).


(** A form with a required input directly in it, followed by a div that
    holds another one, both blank. *)
Definition nestedPage : Doc :=
  mkDoc [Some "/match"]
        [mkElement KInput "" "a" (Some 0) [0] true "" [] "";
         mkElement KInput "" "b" (Some 0) [0; 1] true "" [] ""]
        [] false [] [] [] (mkUploadUi None None None) [] [].

(** A chip whose text holds a line feed. *)
Definition twoLineSkill : string := String "a" (String "010" (String "b" EmptyString)).

(** A page with two required inputs under one parent, the first blank. *)
Definition sharedParentPage : Doc :=
  mkDoc [Some "/match"]
        [mkElement KInput "" "a" (Some 0) [5] true "" [] "";
         mkElement KInput "" "b" (Some 0) [5] true "x" [] ""]
        [] false [] [] [] (mkUploadUi None None None) [] [].

(** * Properties *)

(** ** Facts about the string operations *)

Example ex_lower : Js.toLowerCase "JavaScript C++" = "javascript c++".
Proof. reflexivity. Qed.
Example ex_trim : Js.trim "  a b 	 " = "a b".
Proof. reflexivity. Qed.
Example ex_split : Js.split_comma "a,,b," = ["a"; ""; "b"; ""].
Proof. reflexivity. Qed.
Example ex_replace : Js.replace "abcabc" "bc" "X" = "aXabc".
Proof. reflexivity. Qed.
Example ex_join : Js.join ", " ["a"; "b"; "c"] = "a, b, c".
Proof. reflexivity. Qed.
Example ex_ends : Js.endsWith "cv.pdf" ".pdf" = true /\ Js.endsWith "cv.pdfx" ".pdf" = false.
Proof. split; reflexivity. Qed.
Example ex_incl : Js.includes "javascript" "java" = true /\ Js.includes "java" "javas" = false.
Proof. split; reflexivity. Qed.

Example ex_stripNewlines :
  stripNewlines (String "a" (String "010" (String "013" (String "b" EmptyString)))) = "ab".
Proof. reflexivity. Qed.
Example ex_normalizeNewlines :
  normalizeNewlines (String "a" (String "013" (String "010" (String "b" (String "013" "c")))))
  = String "a" (String "010" (String "b" (String "010" "c"))).
Proof. reflexivity. Qed.
Example ex_pasted_lines :
  backingField (run [TypeText twoLineSkill] samplePage) = Some "ab".
Proof. reflexivity. Qed.
Example ex_precedes :
  precedes [0] [0; 0] = true ∧ precedes [0; 0; 3] [0; 1] = true ∧ precedes [0; 1] [0; 0; 3] = false
  ∧ contains [0] [0; 0] = true ∧ contains [0; 0] [0] = false ∧ contains [0; 1] [0; 0; 3] = false.
Proof. repeat split. Qed.

Lemma append_cons (c : ascii) (a b : string) : String c a +:+ b = String c (a +:+ b).
Proof. reflexivity. Qed.

Lemma append_nil_l (a : string) : "" +:+ a = a.
Proof. reflexivity. Qed.

Lemma append_assoc (a b c : string) : (a +:+ b) +:+ c = a +:+ b +:+ c.
Proof.
  induction a as [|x a IH]; [done |].
  rewrite !append_cons. by f_equal.
Qed.

Lemma append_nil_r (a : string) : a +:+ "" = a.
Proof.
  induction a as [|x a IH]; [done |].
  rewrite append_cons. by f_equal.
Qed.


Lemma startsWith_spec (s p : string) :
  Js.startsWith s p = true ↔ ∃ r, s = p +:+ r.
Proof.
  revert s. induction p as [|a p IH]; intros s; simpl.
  - split; [intros _; exists s; reflexivity | done].
  - destruct s as [|b s].
    + split; [done | intros [r Hr]; rewrite append_cons in Hr; discriminate].
    + rewrite andb_true_iff, Ascii.eqb_eq, IH. split.
      * intros [-> [r ->]]. exists r. reflexivity.
      * intros [r Hr]. rewrite append_cons in Hr. injection Hr as -> ->. eauto.
Qed.

Lemma startsWith_append (p r : string) : Js.startsWith (p +:+ r) p = true.
Proof. apply startsWith_spec. by exists r. Qed.

(** [includes] is the substring test. *)
Lemma includes_spec (s p : string) :
  Js.includes s p = true ↔ ∃ a b, s = a +:+ p +:+ b.
Proof.
  induction s as [|c s IH].
  - simpl. rewrite orb_false_r, startsWith_spec. split.
    + intros [r ->]. exists "", r. reflexivity.
    + intros ([|x a] & b & Hab); [by exists b | rewrite append_cons in Hab; discriminate].
  - cbn [Js.includes]. rewrite orb_true_iff, startsWith_spec, IH. split.
    + intros [[r Hr] | (a & b & ->)].
      * exists "", r. by rewrite Hr.
      * exists (String c a), b. reflexivity.
    + intros ([|x a] & b & Hab).
      * left. by exists b.
      * right. rewrite append_cons in Hab. injection Hab as -> ->. by exists a, b.
Qed.

(** [endsWith] is the suffix test. *)
Lemma endsWith_spec (s p : string) :
  Js.endsWith s p = true ↔ ∃ a, s = a +:+ p.
Proof.
  induction s as [|c s IH].
  - cbn [Js.endsWith]. rewrite orb_false_r, String.eqb_eq. split.
    + intros <-. exists "". reflexivity.
    + intros ([|x a] & Ha); [done | rewrite append_cons in Ha; discriminate].
  - cbn [Js.endsWith]. rewrite orb_true_iff, String.eqb_eq, IH. split.
    + intros [<- | [a ->]]; [exists "" | exists (String c a)]; reflexivity.
    + intros ([|x a] & Ha).
      * by left.
      * right. rewrite append_cons in Ha. injection Ha as -> ->. by exists a.
Qed.

Lemma split_comma_nonempty (s : string) : Js.split_comma s ≠ [].
Proof.
  induction s as [|c s IH]; simpl; [done |].
  destruct (Ascii.eqb c ","); [done |].
  by destruct (Js.split_comma s).
Qed.

Lemma join_cons (sep x y : string) (r : list string) :
  Js.join sep (x :: y :: r) = x +:+ sep +:+ Js.join sep (y :: r).
Proof. reflexivity. Qed.

(** Joining the segments with commas gives the text back. *)
Lemma split_comma_join (s : string) : Js.join "," (Js.split_comma s) = s.
Proof.
  induction s as [|c s IH]; simpl; [done |].
  pose proof (split_comma_nonempty s) as Hne.
  destruct (Ascii.eqb_spec c ",") as [-> | _];
    destruct (Js.split_comma s) as [|seg segs] eqn:E; try done.
  - rewrite join_cons, IH. reflexivity.
  - rewrite <- IH. destruct segs; reflexivity.
Qed.

Lemma truthy_false (s : string) : Js.truthy s = false ↔ s = "".
Proof. destruct s; simpl; split; congruence. Qed.

Lemma substring_skip (p r : string) (n : nat) :
  String.substring (String.length p) n (p +:+ r) = String.substring 0 n r.
Proof. induction p as [|c p IH]; [done |]. by rewrite append_cons. Qed.

Lemma substring_0_longer (r : string) (n : nat) :
  String.length r ≤ n → String.substring 0 n r = r.
Proof.
  revert n. induction r as [|c r IH]; intros n Hn; simpl.
  - by destruct n.
  - destruct n; simpl in *; [lia |]. rewrite IH; [done | lia].
Qed.

(** Unfolds the sequencing of computations so that a handler reduces on
    the page it is run on. *)
Ltac exec_unfold :=
  unfold mbind, exec_bind, mret, exec_ret, throw, gets, modify in *.
Ltac exec_simpl := exec_unfold; simpl in *.

(** ** Suggestions *)

Lemma completes_Normal {A} (o : Outcome A) :
  completes o = true ↔ ∃ a, o = Normal a (final o).
Proof. destruct o; simpl; split; [eauto | done | done | intros [? ?]; done]. Qed.

Lemma filtered_elem (t s : string) :
  s ∈ filtered t ↔ s ∈ vocabulary ∧ suggestible t s = true.
Proof.
  unfold filtered. rewrite !list_elem_of_In, filter_In. done.
Qed.

(** The suggestions come in vocabulary order. *)
Lemma filtered_sublist (t : string) : filtered t `sublist_of` vocabulary.
Proof.
  unfold filtered. generalize vocabulary. intros l.
  induction l as [|x l IH]; simpl; [constructor |].
  destruct (suggestible t x); by constructor.
Qed.

Lemma alreadyEntered_false (t s : string) :
  alreadyEntered t s = false ↔
  ∀ seg, seg ∈ Js.split_comma t → Js.toLowerCase (Js.trim seg) ≠ Js.toLowerCase s.
Proof.
  unfold alreadyEntered. rewrite <- not_true_iff_false, existsb_exists. split.
  - intros Hno seg Hseg Heq. apply Hno. exists seg.
    by rewrite <- list_elem_of_In, String.eqb_eq.
  - intros Hall (seg & Hseg & Heq). apply (Hall seg).
    + by apply list_elem_of_In.
    + by apply String.eqb_eq.
Qed.

Lemma hide_at_most_one (d : Doc) :
  length (dropdowns d) ≤ 1 →
  hideSuggestionsDropdown d = Normal tt (set_dropdowns (λ _, []) d).
Proof.
  intros Hd. unfold hideSuggestionsDropdown, modify, set_dropdowns.
  destruct (dropdowns d) as [|dd [|dd' r]]; simpl in *; [done | done | lia].
Qed.

Lemma dd_items_buildDropdown (suggestions : list string) (input : InputArg) :
  dd_items (buildDropdown suggestions input) = take 5 suggestions.
Proof. reflexivity. Qed.

Lemma length_buildDropdown (suggestions : list string) (input : InputArg) :
  length (dd_items (buildDropdown suggestions input)) ≤ 5.
Proof. simpl. rewrite length_take. lia. Qed.

(** Whatever the typed text, a non-empty suggestion list for a text of two
    characters or more makes the [input] listener throw: the dropdown is
    built but never attached, because [showSkillSuggestions] hands the
    text itself, not the input element, to [showSuggestionsDropdown]. *)
Lemma showSkillSuggestions_throws (t : string) (d : Doc) :
  filtered t ≠ [] → 1 < Js.length t →
  ∃ e, showSkillSuggestions t d = Throws e (set_dropdowns (λ l, match l with [] => [] | _ :: r => r end) d).
Proof.
  intros Hf Ht. unfold showSkillSuggestions.
  destruct (filtered t) as [|s F] eqn:E; [done |].
  replace (1 <? Js.length t) with true by (symmetry; apply Nat.ltb_lt; lia).
  simpl. eauto.
Qed.

(** C2: for every input text [t], the computed suggestion list [filtered t]
    is drawn from the fixed vocabulary; each entry's lower-case form
    contains the lower-case form of [t] as a substring; no entry equals,
    ignoring case, the trim of a comma-separated segment of [t]; the
    dropdown built from it renders at most five items; and when [t] has
    length at most 1 or the list is empty the listener completes with no
    dropdown left in the document. *)
Theorem suggestions_sound (t : string) (d : Doc) :
  length (dropdowns d) ≤ 1 →
  (∀ s, s ∈ filtered t → s ∈ vocabulary)
  ∧ (∀ s, s ∈ filtered t → ∃ a b, Js.toLowerCase s = a +:+ Js.toLowerCase t +:+ b)
  ∧ (∀ s seg, s ∈ filtered t → seg ∈ Js.split_comma t →
       Js.toLowerCase (Js.trim seg) ≠ Js.toLowerCase s)
  ∧ (∀ input, length (dd_items (buildDropdown (filtered t) input)) ≤ 5)
  ∧ Forall (λ dd, length (dd_items dd) ≤ 5)
           (dropdowns (final (showSkillSuggestions t d)))
  ∧ (Js.length t ≤ 1 ∨ filtered t = [] →
       showSkillSuggestions t d = Normal tt (set_dropdowns (λ _, []) d)).
Proof.
  intros Hd. split_and!.
  - intros s Hs. by apply filtered_elem in Hs as [? _].
  - intros s Hs. apply filtered_elem in Hs as [_ Hs].
    unfold suggestible in Hs. apply andb_true_iff in Hs as [Hs _].
    by apply includes_spec.
  - intros s seg Hs Hseg. apply filtered_elem in Hs as [_ Hs].
    unfold suggestible in Hs. apply andb_true_iff in Hs as [_ Hs].
    apply negb_true_iff in Hs. by eapply alreadyEntered_false.
  - intros input. apply length_buildDropdown.
  - unfold showSkillSuggestions, showSuggestionsDropdown, hideSuggestionsDropdown.
    destruct ((0 <? length (filtered t)) && (1 <? Js.length t)); exec_simpl;
      destruct (dropdowns d) as [|dd [|dd' r]]; simpl in *; try lia; constructor.
  - intros Hhide. unfold showSkillSuggestions.
    replace ((0 <? length (filtered t)) && (1 <? Js.length t)) with false.
    + by apply hide_at_most_one.
    + symmetry. apply andb_false_iff. destruct Hhide as [Ht | ->].
      * right. apply Nat.ltb_ge. done.
      * left. done.
Qed.

Lemma suggestions_sound_witness :
  (∀ s, s ∈ filtered "py" → s ∈ vocabulary)
  ∧ (∀ s, s ∈ filtered "py" → ∃ a b, Js.toLowerCase s = a +:+ Js.toLowerCase "py" +:+ b)
  ∧ (∀ s seg, s ∈ filtered "py" → seg ∈ Js.split_comma "py" →
       Js.toLowerCase (Js.trim seg) ≠ Js.toLowerCase s)
  ∧ (∀ input, length (dd_items (buildDropdown (filtered "py") input)) ≤ 5)
  ∧ Forall (λ dd, length (dd_items dd) ≤ 5)
           (dropdowns (final (showSkillSuggestions "py" samplePage)))
  ∧ (Js.length "py" ≤ 1 ∨ filtered "py" = [] →
       showSkillSuggestions "py" samplePage = Normal tt (set_dropdowns (λ _, []) samplePage)).
Proof. apply (suggestions_sound "py" samplePage). simpl. lia. Defined.

(** C7 as stated fails: for the text "java" the computed list is not
    ["Java"; "JavaScript"]. *)
Lemma java_suggestions_not_both : filtered "java" ≠ ["Java"; "JavaScript"].
Proof. vm_compute. discriminate. Qed.

(** C7, amended: for the text "java" the computed list is ["JavaScript"]
    alone.  "Java" does match, ignoring case, but it equals the only
    comma-separated segment of the text and is filtered out as already
    entered; "JavaScript" precedes "Java" in the vocabulary. *)
Theorem java_suggestions :
  filtered "java" = ["JavaScript"]
  ∧ Js.includes (Js.toLowerCase "Java") (Js.toLowerCase "java") = true
  ∧ alreadyEntered "java" "Java" = true
  ∧ Js.includes (Js.toLowerCase "JavaScript") (Js.toLowerCase "java") = true
  ∧ alreadyEntered "java" "JavaScript" = false
  ∧ (∃ before between after,
       vocabulary = before ++ "JavaScript" :: between ++ "Java" :: after).
Proof.
  split_and!; try (vm_compute; reflexivity).
  exists ["Python"], [], (drop 3 vocabulary). reflexivity.
Qed.

(** ** Lookups and updates of the element table *)

Lemma find_index_alter (p : Element → bool) (f : Element → Element) (j : nat)
    (l : list Element) :
  (∀ e, p (f e) = p e) →
  fst <$> list_find (λ e, Is_true (p e)) (alter f j l)
  = fst <$> list_find (λ e, Is_true (p e)) l.
Proof.
  intros Hp. revert j. induction l as [|x l IH]; intros j; [done |].
  destruct j as [|j]; simpl.
  - rewrite Hp. destruct (decide (Is_true (p x))); [done |].
    by destruct (list_find _ l) as [[k y]|].
  - destruct (decide (Is_true (p x))); [done |].
    specialize (IH j). change (list_alter f j l) with (alter f j l).
    destruct (list_find _ (alter f j l)) as [[k y]|],
             (list_find _ l) as [[k' y']|]; simpl in *; congruence.
Qed.

Lemma querySelector_alter (p : Element → bool) (f : Element → Element) (j : nat) (d : Doc) :
  (∀ e, p (f e) = p e) →
  querySelector p (set_elements (alter f j) d) = querySelector p d.
Proof. intros Hp. unfold querySelector. simpl. by apply find_index_alter. Qed.

Lemma querySelector_Some (p : Element → bool) (d : Doc) (j : nat) :
  querySelector p d = Some j → ∃ e, elements d !! j = Some e ∧ p e = true.
Proof.
  unfold querySelector. intros H.
  destruct (list_find _ (elements d)) as [[k e]|] eqn:E; simplify_eq/=.
  apply list_find_Some in E as (Hl & Hp & _).
  exists e. split; [done | by apply Is_true_true].
Qed.

Lemma querySelector_None (p : Element → bool) (d : Doc) :
  querySelector p d = None ↔ ∀ j e, elements d !! j = Some e → p e = false.
Proof.
  unfold querySelector. rewrite fmap_None, list_find_None, Forall_lookup.
  split; intros H j e Hj; specialize (H j e Hj).
  - destruct (p e); [exfalso; by apply H | done].
  - rewrite H. simpl. tauto.
Qed.

Lemma elem_of_querySelectorAll (p : Element → bool) (d : Doc) (j : nat) :
  j ∈ querySelectorAll p d ↔ ∃ e, elements d !! j = Some e ∧ p e = true.
Proof.
  unfold querySelectorAll, matches.
  rewrite list_elem_of_In, filter_In, <- list_elem_of_In, elem_of_seq. split.
  - intros [_ H]. destruct (elements d !! j) as [e|]; [eauto | done].
  - intros (e & He & Hp). rewrite He. split; [| done].
    apply lookup_lt_Some in He. lia.
Qed.

Lemma getElement_Some (j : nat) (d : Doc) (e : Element) :
  elements d !! j = Some e → getElement j d = Normal e d.
Proof. intros H. unfold getElement. by rewrite H. Qed.

Lemma lookup_alter_eq (f : Element → Element) (j : nat) (d : Doc) (e : Element) :
  elements d !! j = Some e →
  elements (set_elements (alter f j) d) !! j = Some (f e).
Proof. intros H. simpl. by rewrite list_lookup_alter_eq, H. Qed.

Lemma skillsInputAt_alter_text (d : Doc) (j : nat) (v : string) :
  skillsInputAt d j → skillsInputAt (set_elements (alter (with_text v) j) d) j.
Proof.
  intros [Hq (e & He & Hk)]. split.
  - by rewrite querySelector_alter.
  - exists (with_text v e). split; [by apply lookup_alter_eq | done].
Qed.

Lemma backingField_alter_text (d : Doc) (j : nat) (v : string) :
  skillsInputAt d j →
  backingField (set_elements (alter (with_text v) j) d) = Some v.
Proof.
  intros [Hq (e & He & Hk)]. unfold backingField.
  rewrite querySelector_alter, Hq by done. simpl.
  rewrite list_lookup_alter_eq, He. simpl. unfold value. simpl. by rewrite Hk.
Qed.

Lemma setValue_text (d : Doc) (j : nat) (v : string) :
  (∃ e, elements d !! j = Some e ∧ kind e = KInput) →
  setValue j v d = Normal tt (set_elements (alter (with_text (stripNewlines v)) j) d).
Proof.
  intros (e & He & Hk). unfold setValue. exec_unfold.
  rewrite (getElement_Some _ _ _ He), Hk. done.
Qed.

Lemma updateSkillsInput_ok (d : Doc) (j : nat) :
  skillsInputAt d j →
  updateSkillsInput d
  = Normal tt (set_elements (alter (with_text (stripNewlines (serialized (skillTags d)))) j) d).
Proof.
  intros [Hq He]. unfold updateSkillsInput. exec_unfold. simpl.
  rewrite Hq. by apply setValue_text.
Qed.

Lemma addSkillTag_empty (d : Doc) : addSkillTag "" d = Normal tt d.
Proof. reflexivity. Qed.

Lemma addSkillTag_ok (d : Doc) (j : nat) (skill : string) :
  skillsInputAt d j → skill ≠ "" →
  let tags := skillTags d ++ [mkChip skill removeGlyph] in
  addSkillTag skill d
  = Normal tt (set_elements (alter (with_text (stripNewlines (serialized tags))) j)
                 (set_skillTags (λ _, tags) (set_tagsContainer true d))).
Proof.
  intros Hj Hs tags. unfold addSkillTag.
  destruct skill as [|c skill]; [done |]. simpl. exec_unfold. simpl.
  destruct (tagsContainer d) eqn:Hc.
  - simpl. rewrite (updateSkillsInput_ok _ j).
    + destruct d; simpl in *. by subst.
    + destruct Hj as [Hq He]. split; done.
  - unfold createSkillTagsContainer. exec_unfold. simpl.
    destruct Hj as [Hq He]. rewrite Hq.
    rewrite (updateSkillsInput_ok _ j); [done | split; done].
Qed.

Lemma removeTag_ok (d : Doc) (j k : nat) :
  skillsInputAt d j →
  let tags := delete k (skillTags d) in
  removeTag k d
  = Normal tt (set_elements (alter (with_text (stripNewlines (serialized tags))) j)
                 (set_skillTags (λ _, tags) d)).
Proof.
  intros [Hq He] tags. unfold removeTag. exec_unfold. simpl.
  rewrite (updateSkillsInput_ok _ j); [done | split; done].
Qed.

(** ** The backing field *)






(** ** Dropdowns during a session *)

(** Case analysis on every branch a handler takes. *)
Ltac exec_cases :=
  repeat (exec_unfold; simpl in *; try case_match; simplify_eq/=).

Lemma addSkillTag_dropdowns (skill : string) (d : Doc) :
  dropdowns (final (addSkillTag skill d)) = dropdowns d.
Proof.
  unfold addSkillTag, createSkillTagsContainer, updateSkillsInput, setValue,
    getElement, updateElement.
  exec_cases; done.
Qed.

Lemma removeTag_dropdowns (k : nat) (d : Doc) :
  dropdowns (final (removeTag k d)) = dropdowns d.
Proof.
  unfold removeTag, updateSkillsInput, setValue, getElement, updateElement.
  exec_cases; done.
Qed.

(** Every action leaves the dropdowns alone, removes the first one, or
    removes the first one and appends a new one. *)
Lemma step_dropdowns (d : Doc) (a : Action) :
  dropdowns (step d a) = dropdowns d
  ∨ dropdowns (step d a) = tail (dropdowns d)
  ∨ ∃ dd, dropdowns (step d a) = tail (dropdowns d) ++ [dd].
Proof.
  unfold step. destruct a as [skill | k | v | key | k n | suggestions input | ].
  - left. apply addSkillTag_dropdowns.
  - left. apply removeTag_dropdowns.
  - simpl. unfold onSkillsInput, showSkillSuggestions, showSuggestionsDropdown,
      hideSuggestionsDropdown, getElement, updateElement.
    exec_cases; auto.
  - simpl. unfold onSkillsKeydown. exec_unfold. simpl.
    destruct (querySelector isSkillsInput d) as [j|]; [| by left].
    destruct (String.eqb key "Enter" || String.eqb key ","); [| by left].
    unfold getElement. destruct (elements d !! j) as [e|]; [| by left].
    destruct (value e) as [v|]; [| by left].
    pose proof (addSkillTag_dropdowns (Js.trim v) d) as Hadd.
    destruct (addSkillTag (Js.trim v) d) as [[] d1 | err d1]; simpl in Hadd; [| by left].
    left. rewrite <- Hadd. unfold setValue, getElement, updateElement.
    exec_cases; done.
  - simpl. unfold suggestionClick. exec_unfold. simpl.
    destruct (dropdowns d !! k) as [dd|]; [| by left].
    destruct (dd_items dd !! n) as [skill|]; [| by left].
    pose proof (addSkillTag_dropdowns skill d) as Hadd.
    destruct (addSkillTag skill d) as [[] d1 | err d1]; simpl in Hadd; [| by left].
    rewrite <- Hadd. unfold setValue, hideSuggestionsDropdown, getElement, updateElement.
    exec_cases; auto.
  - simpl. unfold showSuggestionsDropdown, hideSuggestionsDropdown, getElement.
    exec_cases; eauto.
  - simpl. right. left. unfold hideSuggestionsDropdown. exec_simpl.
    by destruct (dropdowns d).
Qed.

Lemma step_at_most_one (d : Doc) (a : Action) :
  length (dropdowns d) ≤ 1 → length (dropdowns (step d a)) ≤ 1.
Proof.
  intros Hd. destruct (step_dropdowns d a) as [-> | [-> | [dd ->]]]; [done | |];
    destruct (dropdowns d) as [|x [|y r]]; simpl in *; lia.
Qed.

(** C10: starting from a page with at most one suggestions dropdown (a
    served page has none), at most one exists after every sequence of
    actions.  Showing a dropdown first removes the existing one, so the
    document ends with the new one alone, or with none when attaching it
    throws; hiding completes and leaves none. *)
Theorem at_most_one_dropdown (d : Doc) (actions : list Action) :
  length (dropdowns d) ≤ 1 →
  length (dropdowns (run actions d)) ≤ 1
  ∧ (∀ suggestions input,
       let after := dropdowns (final (showSuggestionsDropdown suggestions input d)) in
       after = [] ∨ after = [buildDropdown suggestions input])
  ∧ hideSuggestionsDropdown d = Normal tt (set_dropdowns (λ _, []) d).
Proof.
  intros Hd. split_and!.
  - revert d Hd. induction actions as [|a actions IH]; intros d Hd; [done |].
    simpl. apply IH. by apply step_at_most_one.
  - intros suggestions input.
    unfold showSuggestionsDropdown, hideSuggestionsDropdown, getElement.
    destruct (dropdowns d) as [|x [|y r]] eqn:E; simpl in Hd; try lia;
      exec_cases; rewrite ?E; auto.
  - by apply hide_at_most_one.
Qed.

Lemma at_most_one_dropdown_witness :
  length (dropdowns (run [TypeText "ja"; ShowDropdown ["Java"] (ArgElement 0);
                          ShowDropdown ["Ruby"] (ArgElement 0)] samplePage)) ≤ 1
  ∧ (∀ suggestions input,
       let after := dropdowns (final (showSuggestionsDropdown suggestions input samplePage)) in
       after = [] ∨ after = [buildDropdown suggestions input])
  ∧ hideSuggestionsDropdown samplePage = Normal tt (set_dropdowns (λ _, []) samplePage).
Proof. apply (at_most_one_dropdown samplePage). simpl. lia. Defined.

Example ex_two_shows :
  dropdowns (run [ShowDropdown ["Java"] (ArgElement 0); ShowDropdown ["Ruby"] (ArgElement 0)]
                 samplePage)
  = [mkDropdown ["Ruby"] (ArgElement 0)].
Proof. reflexivity. Qed.

(** ** Commits and removals *)

Lemma skillsInputAt_frame (d d' : Doc) (j : nat) :
  elements d' = elements d → skillsInputAt d j → skillsInputAt d' j.
Proof.
  intros He [Hq H]. unfold skillsInputAt, querySelector in *. by rewrite He.
Qed.







(** C1 fails on the code in two ways.  Committing the skill ["a ×b"],
    which contains the glyph, on a page with the skills input completes
    and creates the chip, but the backing field becomes ["ab ×"], the chip
    text without the first occurrence of the glyph, whereas the chip text
    with the trailing glyph stripped is ["a ×b"].  And a commit through
    the Enter key, which calls [addSkillTag] and then clears the input,
    leaves the chip "Python" with an empty backing field, the input being
    the backing field itself. *)
Theorem backing_field_drift :
  (let o := addSkillTag glyphSkill samplePage in
   completes o = true
   ∧ map textContent (skillTags (final o)) = [glyphSkill +:+ removeGlyph]
   ∧ backingField (final o) = Some ("ab" +:+ removeGlyph)
   ∧ joinedChipTexts (skillTags (final o)) = glyphSkill
   ∧ backingField (final o) ≠ Some (joinedChipTexts (skillTags (final o))))
  ∧ (let d := run [TypeText "Python"; PressKey "Enter"] samplePage in
     map textContent (skillTags d) = ["Python" +:+ removeGlyph]
     ∧ joinedChipTexts (skillTags d) = "Python"
     ∧ backingField d = Some "").
Proof. vm_compute. split_and!; done. Qed.

(** C9: on a page with the skills input and no chip yet, committing
    "Python" twice completes, leaves the two chips "Python", "Python" and
    the backing field "Python, Python". *)
Theorem duplicate_tags_kept (d : Doc) (j : nat) :
  skillsInputAt d j → skillTags d = [] →
  let o := (addSkillTag "Python";; addSkillTag "Python") d in
  completes o = true
  ∧ map chip_text (skillTags (final o)) = ["Python"; "Python"]
  ∧ backingField (final o) = Some "Python, Python".
Proof.
  intros Hj Htags o. subst o. exec_unfold.
  rewrite (addSkillTag_ok d j) by done. rewrite Htags. cbn zeta.
  set (d1 := set_elements _ _).
  assert (skillsInputAt d1 j) as Hj1.
  { apply skillsInputAt_alter_text. by eapply skillsInputAt_frame. }
  rewrite (addSkillTag_ok d1 j) by done. cbn zeta. split_and!; [done | done |].
  simpl final. rewrite backingField_alter_text; [done |].
  by eapply skillsInputAt_frame.
Qed.

Lemma duplicate_tags_kept_witness :
  let o := (addSkillTag "Python";; addSkillTag "Python") samplePage in
  completes o = true
  ∧ map chip_text (skillTags (final o)) = ["Python"; "Python"]
  ∧ backingField (final o) = Some "Python, Python".
Proof.
  apply (duplicate_tags_kept samplePage 0).
  - split; [reflexivity | by eexists].
  - reflexivity.
Defined.


(** ** Blank commits *)

Lemma vocabulary_not_blank : Forall (λ s, Js.trim s ≠ "") vocabulary.
Proof. repeat constructor; by vm_compute. Qed.

Lemma take_subseteq {A} (n : nat) (l : list A) (x : A) : x ∈ take n l → x ∈ l.
Proof. intros H. rewrite <- (take_drop n l). apply elem_of_app. by left. Qed.

(** C8 as stated fails.  The exposed operation does not ignore every
    white-space-only string: for a single space it creates a chip.  And
    the key path does not leave the backing field unchanged: a field that
    holds two spaces is empty after Enter. *)
Lemma whitespace_tag_committed :
  ¬ (∀ (s : string) (d : Doc), Js.trim s = "" →
       skillTags (final (addSkillTag s d)) = skillTags d
       ∧ backingField (final (addSkillTag s d)) = backingField d)
  ∧ ¬ (∀ (d : Doc) (j : nat) (e : Element) (key : string),
         querySelector isSkillsInput d = Some j →
         elements d !! j = Some e → Js.trim (text e) = "" → key = "Enter" →
         backingField (final (onSkillsKeydown j key d)) = backingField d).
Proof.
  split.
  - intros H. destruct (H " " samplePage) as [Htags _]; [reflexivity |].
    vm_compute in Htags. discriminate.
  - intros H.
    specialize (H matchPage 0 (mkElement KInput "" "user_skills" (Some 0) [7] true "  " [] "")
                  "Enter" eq_refl eq_refl eq_refl eq_refl).
    vm_compute in H. discriminate.
Qed.

(** C8, amended.  The exposed [addSkillTag] ignores the empty string and
    nothing else: the page is left as it was, while every other argument,
    white space included, becomes a chip.  On the Enter and comma keys
    an empty or white-space-only text creates no chip and shows no error;
    the handler completes, suppresses the key and leaves the input, which
    is the backing field, empty.  A suggestion click never attempts such
    a commit: every item of a dropdown built from the suggestions is a
    vocabulary entry, none of which is blank. *)
Theorem blank_commit_ignored :
  (∀ d, addSkillTag "" d = Normal tt d)
  ∧ (∀ d j e key,
       elements d !! j = Some e → kind e = KInput → Js.trim (text e) = "" →
       key = "Enter" ∨ key = "," →
       let d' := set_elements (alter (with_text "") j) d in
       onSkillsKeydown j key d = Normal true d'
       ∧ skillTags d' = skillTags d
       ∧ notifications d' = notifications d
       ∧ fieldErrors d' = fieldErrors d
       ∧ (value <$> elements d' !! j) = Some (Some ""))
  ∧ (∀ t input s, s ∈ dd_items (buildDropdown (filtered t) input) →
       s ∈ vocabulary ∧ Js.trim s ≠ "")
  ∧ (∀ d j s, skillsInputAt d j → s ≠ "" →
       completes (addSkillTag s d) = true
       ∧ skillTags (final (addSkillTag s d)) = skillTags d ++ [mkChip s removeGlyph]).
Proof.
  split_and!; [| | | by intros d j s Hj Hs; rewrite (addSkillTag_ok d j s Hj Hs)].
  - intros d. reflexivity.
  - intros d j e key He Hk Hblank Hkey d'. split_and!; [| reflexivity ..|].
    + unfold onSkillsKeydown.
      replace (String.eqb key "Enter" || String.eqb key ",") with true
        by (by destruct Hkey as [-> | ->]).
      exec_unfold. rewrite (getElement_Some _ _ _ He).
      unfold value. rewrite Hk, Hblank. cbn [addSkillTag Js.truthy negb].
      exec_unfold. rewrite setValue_text by eauto. done.
    + subst d'. simpl. rewrite list_lookup_alter_eq, He. simpl.
      unfold value. simpl. by rewrite Hk.
  - intros t input s Hs. rewrite dd_items_buildDropdown in Hs. apply take_subseteq in Hs.
    apply filtered_elem in Hs as [Hv _]. split; [done |].
    pose proof vocabulary_not_blank as Hall. rewrite Forall_forall in Hall. by apply Hall.
Qed.

Lemma blank_commit_ignored_witness :
  onSkillsKeydown 0 "," matchPage
  = Normal true (set_elements (alter (with_text "") 0) matchPage)
  ∧ skillTags (set_elements (alter (with_text "") 0) matchPage) = []
  ∧ addSkillTag "" matchPage = Normal tt matchPage
  ∧ skillTags (final (addSkillTag " " matchPage)) = [mkChip " " removeGlyph].
Proof.
  destruct blank_commit_ignored as (Hempty & Hkey & _ & Hchip).
  destruct (Hkey matchPage 0 (mkElement KInput "" "user_skills" (Some 0) [7] true "  " [] "") ",")
    as (Hrun & Htags & _); try reflexivity.
  - by right.
  - split_and!; [exact Hrun | exact Htags | apply Hempty |].
    apply (Hchip matchPage 0 " "); [| discriminate].
    split; [reflexivity | by eexists].
Defined.

(** ** The required marker of the CV textarea *)

Lemma trimmedValue_ok (d : Doc) (j : nat) (e : Element) (v : string) :
  elements d !! j = Some e → value e = Some v →
  trimmedValue j d = Normal (Js.trim v) d.
Proof.
  intros He Hv. unfold trimmedValue. exec_unfold.
  rewrite (getElement_Some _ _ _ He), Hv. done.
Qed.

Lemma value_textarea (e : Element) : kind e = KTextarea → value e = Some (text e).
Proof. intros H. unfold value. by rewrite H. Qed.


(** [hasFile] is false exactly when no file is selected: the chooser is
    missing, is not a file chooser, or its file list is empty. *)
Lemma hasFileOf_false (cvFile : option nat) (d : Doc) :
  hasFileOf cvFile d = false ↔
  ∀ j e l, cvFile = Some j → elements d !! j = Some e → files e = Some l → l = [].
Proof.
  unfold hasFileOf. split.
  - intros H j e l -> He Hl. rewrite He, Hl in H. by destruct l.
  - intros H. destruct cvFile as [j|]; [| done].
    destruct (elements d !! j) as [e|] eqn:He; [| done].
    destruct (files e) as [[|f l]|] eqn:Hl; try done.
    by specialize (H j e (f :: l) eq_refl He Hl).
Qed.





Example ex_sync_text :
  let typed := set_elements (alter (with_text "x") 0) analyzePage in
  (required <$> elements (final (syncRequired 0 (Some 1) analyzePage)) !! 0) = Some true
  ∧ (required <$> elements (final (syncRequired 0 (Some 1) typed)) !! 0) = Some false.
Proof. split; reflexivity. Qed.

(** ** Validation on submit *)

Lemma sameButBorder_value (e e' : Element) : sameButBorder e e' → value e = value e'.
Proof.
  unfold sameButBorder, with_borderColor, value. intros H.
  injection H as Hk _ _ _ _ _ Ht Hf. by rewrite Hk, Ht, Hf.
Qed.

Lemma sameButBorder_parent (e e' : Element) : sameButBorder e e' → el_parent e = el_parent e'.
Proof. unfold sameButBorder, with_borderColor. intros H. by injection H. Qed.

Lemma loopRel_refl (d : Doc) : loopRel d d.
Proof. split; [done |]. intros j. by destruct (elements d !! j). Qed.

Lemma loopRel_trans (d1 d2 d3 : Doc) : loopRel d1 d2 → loopRel d2 d3 → loopRel d1 d3.
Proof.
  intros [Hf1 He1] [Hf2 He2]. split; [congruence |].
  intros j. specialize (He1 j). specialize (He2 j).
  destruct (elements d1 !! j), (elements d2 !! j), (elements d3 !! j); try done.
  unfold sameButBorder in *. congruence.
Qed.

Lemma loopRel_border (d : Doc) (c : string) (j : nat) (g : list FieldError → list FieldError) :
  loopRel d (set_elements (alter (with_borderColor c) j) (set_fieldErrors g d)).
Proof.
  split; [done |]. intros k. simpl.
  destruct (decide (j = k)) as [-> | Hne].
  - rewrite list_lookup_alter_eq. by destruct (elements d !! k).
  - rewrite list_lookup_alter_ne by done. by destruct (elements d !! k).
Qed.

Lemma loopRel_hasValue (d d' : Doc) (j : nat) : loopRel d d' → hasValue d j → hasValue d' j.
Proof.
  intros [_ He] (e & v & Hj & Hv). specialize (He j). rewrite Hj in He.
  destruct (elements d' !! j) as [e'|] eqn:E; [| done].
  exists e', v. split; [done |]. by rewrite <- (sameButBorder_value e e').
Qed.

Lemma loopRel_lookup (d d' : Doc) (j : nat) (e : Element) :
  loopRel d d' → elements d !! j = Some e →
  ∃ e', elements d' !! j = Some e' ∧ value e' = value e ∧ el_parent e' = el_parent e.
Proof.
  intros [_ He] Hj. specialize (He j). rewrite Hj in He.
  destruct (elements d' !! j) as [e'|]; [| done].
  exists e'. split_and!; [done | |].
  - symmetry. by apply sameButBorder_value.
  - symmetry. by apply sameButBorder_parent.
Qed.

Lemma border_twice (c c' : string) (j : nat) (l : list Element) :
  alter (with_borderColor c) j (alter (with_borderColor c') j l)
  = alter (with_borderColor c) j l.
Proof. rewrite list_alter_alter_eq. apply list_alter_ext; [| done]. by intros []. Qed.

Lemma contains_refl (p : Path) : contains p p = true.
Proof. induction p as [|a p IH]; [done |]. simpl. by rewrite Nat.eqb_refl. Qed.

Lemma contains_trans (p q r : Path) :
  contains p q = true → contains q r = true → contains p r = true.
Proof.
  revert q r. induction p as [|a p IH]; intros [|b q] [|c r]; simpl; try done.
  rewrite !andb_true_iff, !Nat.eqb_eq. intros [-> H1] [-> H2]. eauto.
Qed.

(** Two nodes that contain the same node lie on one branch. *)
Lemma contains_comparable (p q r : Path) :
  contains p r = true → contains q r = true →
  contains p q = true ∨ contains q p = true.
Proof.
  revert q r. induction p as [|a p IH]; intros [|b q] [|c r]; simpl; auto; try done.
  rewrite !andb_true_iff, !Nat.eqb_eq. intros [-> H1] [-> H2].
  destruct (IH q r H1 H2); [left | right]; split; done.
Qed.

Lemma map_parent_border (c : string) (j : nat) (l : list Element) :
  map el_parent (alter (with_borderColor c) j l) = map el_parent l.
Proof.
  revert j. induction l as [|x l IH]; intros [|j]; simpl; try done.
  f_equal. apply IH.
Qed.

Lemma nextLabel_border (p : Path) (c : string) (j : nat) (d : Doc) :
  nextLabel p (set_elements (alter (with_borderColor c) j) d) = nextLabel p d.
Proof. unfold nextLabel, tracked. simpl. by rewrite map_parent_border. Qed.

Lemma errorsUnder_cons (parent : Path) (x : FieldError) (l : list FieldError) :
  errorsUnder parent (x :: l)
  = (if contains parent (fe_parent x) then 1 else 0) + errorsUnder parent l.
Proof. unfold errorsUnder. cbn [List.filter]. by destruct (contains _ _). Qed.

Lemma errorsUnder_app (parent : Path) (l1 l2 : list FieldError) :
  errorsUnder parent (l1 ++ l2) = errorsUnder parent l1 + errorsUnder parent l2.
Proof. unfold errorsUnder. by rewrite List.filter_app, length_app. Qed.

(** A node has at most as many error divs inside as a node around it. *)
Lemma errorsUnder_mono (p q : Path) (l : list FieldError) :
  contains q p = true → errorsUnder p l ≤ errorsUnder q l.
Proof.
  intros Hqp. induction l as [|x l IH]; [done |]. rewrite !errorsUnder_cons.
  destruct (contains p (fe_parent x)) eqn:E; [| lia].
  rewrite (contains_trans q p _ Hqp E). lia.
Qed.

Lemma errorsUnder_delete (q : Path) (k : nat) (l : list FieldError) (fe : FieldError) :
  l !! k = Some fe →
  errorsUnder q (delete k l)
  = errorsUnder q l - (if contains q (fe_parent fe) then 1 else 0).
Proof.
  revert k. induction l as [|x l IH]; intros [|k] Hk; simplify_eq/=.
  - rewrite errorsUnder_cons. destruct (contains q (fe_parent fe)); lia.
  - change (errorsUnder q (x :: delete k l)
            = errorsUnder q (x :: l) - (if contains q (fe_parent fe) then 1 else 0)).
    rewrite !errorsUnder_cons, (IH k Hk).
    assert (errorsUnder q l ≥ (if contains q (fe_parent fe) then 1 else 0)).
    { clear IH. revert k Hk. induction l as [|y l IH]; intros [|k] Hk; simplify_eq/=.
      - rewrite errorsUnder_cons. destruct (contains q (fe_parent fe)); lia.
      - rewrite errorsUnder_cons. specialize (IH k Hk).
        destruct (contains q (fe_parent fe)), (contains q (fe_parent y)); lia. }
    destruct (contains q (fe_parent x)), (contains q (fe_parent fe)); lia.
Qed.

Lemma firstError_Some (parent : Path) (l : list FieldError) (k : nat) (fe : FieldError) :
  firstError parent l = Some (k, fe) →
  l !! k = Some fe ∧ contains parent (fe_parent fe) = true.
Proof.
  revert k fe. induction l as [|x l IH]; intros k fe; [done |]. cbn [firstError].
  destruct (firstError parent l) as [[k' fe']|].
  - destruct (contains parent (fe_parent x) && _) eqn:E; intros [= <- <-].
    + by apply andb_true_iff in E as [E _].
    + by apply IH.
  - destruct (contains parent (fe_parent x)) eqn:E; intros [= <- <-]. done.
Qed.

Lemma firstError_None (parent : Path) (l : list FieldError) :
  firstError parent l = None ↔ errorsUnder parent l = 0.
Proof.
  induction l as [|x l IH]; [done |]. rewrite errorsUnder_cons. cbn [firstError].
  destruct (firstError parent l) as [[k fe]|].
  - assert (errorsUnder parent l ≠ 0) as Hne by (intros H; by apply IH in H).
    split; [by destruct (_ && _) | lia].
  - assert (errorsUnder parent l = 0) as -> by (by apply IH).
    destruct (contains parent (fe_parent x)); done.
Qed.

(** The query finds the only error div inside the parent when it is the
    one appended last. *)
Lemma firstError_snoc (parent : Path) (l : list FieldError) (x : FieldError) :
  errorsUnder parent l = 0 → contains parent (fe_parent x) = true →
  firstError parent (l ++ [x]) = Some (length l, x).
Proof.
  intros Hnone Hx. induction l as [|y l IH]; simpl.
  - by rewrite Hx.
  - rewrite errorsUnder_cons in Hnone.
    destruct (contains parent (fe_parent y)) eqn:E; [lia |].
    rewrite IH by lia. done.
Qed.

Lemma removeFirstError_none (parent : Path) (l : list FieldError) :
  errorsUnder parent l = 0 → removeFirstError parent l = l.
Proof. intros H. unfold removeFirstError. apply firstError_None in H. by rewrite H. Qed.

Lemma removeFirstError_snoc (parent : Path) (l : list FieldError) (x : FieldError) :
  errorsUnder parent l = 0 → contains parent (fe_parent x) = true →
  removeFirstError parent (l ++ [x]) = l.
Proof.
  intros Hnone Hx. unfold removeFirstError. rewrite firstError_snoc by done.
  clear. induction l as [|y l IH]; simpl; [done | by rewrite IH].
Qed.

(** Removing the error div the query finds takes one from the count of
    the parent, and at most one from any other count. *)
Lemma errorsUnder_remove_same (parent : Path) (l : list FieldError) :
  errorsUnder parent (removeFirstError parent l) = pred (errorsUnder parent l).
Proof.
  unfold removeFirstError. destruct (firstError parent l) as [[k fe]|] eqn:E.
  - apply firstError_Some in E as [Hk Hin].
    rewrite (errorsUnder_delete _ _ _ _ Hk), Hin. lia.
  - apply firstError_None in E. by rewrite E.
Qed.

Lemma errorsUnder_remove_le (parent q : Path) (l : list FieldError) :
  errorsUnder q (removeFirstError parent l) ≤ errorsUnder q l.
Proof.
  unfold removeFirstError. destruct (firstError parent l) as [[k fe]|] eqn:E; [| done].
  apply firstError_Some in E as [Hk _]. rewrite (errorsUnder_delete _ _ _ _ Hk). lia.
Qed.

Lemma removeFirstError_keeps (parent : Path) (l : list FieldError) (fe : FieldError) :
  fe ∈ l → contains parent (fe_parent fe) = false → fe ∈ removeFirstError parent l.
Proof.
  intros Hin Hne. unfold removeFirstError.
  destruct (firstError parent l) as [[k x]|] eqn:E; [| done].
  apply firstError_Some in E as [Hk Hx].
  apply list_elem_of_lookup in Hin as [i Hi].
  assert (i ≠ k) as Hik by (intros ->; congruence).
  apply list_elem_of_lookup.
  destruct (decide (i < k)).
  - exists i. by rewrite list_lookup_delete_lt.
  - exists (i - 1). rewrite list_lookup_delete_ge by lia.
    replace (S (i - 1)) with i by lia. done.
Qed.

Lemma validateField_blank (b : bool) (j : nat) (d : Doc) (e : Element) (v : string) :
  elements d !! j = Some e → value e = Some v → Js.trim v = "" →
  validateField b j d
  = Normal false
      (set_elements (alter (with_borderColor "#e74c3c") j)
         (appendErrorDiv (el_parent e) "This field is required"
            (set_fieldErrors (removeFirstError (el_parent e)) d))).
Proof.
  intros He Hv Hblank. unfold validateField. exec_unfold.
  rewrite (trimmedValue_ok d j e v He Hv), Hblank. cbn [Js.truthy negb].
  unfold showFieldError, clearFieldError, updateElement. exec_unfold.
  rewrite (getElement_Some _ _ _ He).
  erewrite (getElement_Some j _ (with_borderColor "" e)) by (by apply lookup_alter_eq).
  cbn [el_parent with_borderColor]. unfold appendErrorDiv. rewrite nextLabel_border.
  unfold set_elements, set_fieldErrors. cbn. by rewrite border_twice.
Qed.

Lemma validateField_filled (b : bool) (j : nat) (d : Doc) (e : Element) (v : string) :
  elements d !! j = Some e → value e = Some v → Js.trim v ≠ "" →
  validateField b j d
  = Normal b
      (set_elements (alter (with_borderColor "") j)
         (set_fieldErrors (removeFirstError (el_parent e)) d)).
Proof.
  intros He Hv Hfilled. unfold validateField. exec_unfold.
  rewrite (trimmedValue_ok d j e v He Hv).
  destruct (Js.trim v) as [|c r]; [done |]. cbn [Js.truthy negb].
  unfold clearFieldError, updateElement. exec_unfold.
  by rewrite (getElement_Some _ _ _ He).
Qed.

Lemma foldM_app {A B} (f : B → A → Exec B) (l1 l2 : list A) (b : B) (d : Doc) :
  foldM f b (l1 ++ l2) d
  = match foldM f b l1 d with
    | Normal b1 d1 => foldM f b1 l2 d1
    | Throws err d1 => Throws err d1
    end.
Proof.
  revert b d. induction l1 as [|x l1 IH]; intros b d; [done |].
  simpl. exec_unfold. destruct (f b x d) as [b1 d1 | err d1]; [apply IH | done].
Qed.

Lemma forallb_pointwise {A} (f g : A → bool) (l : list A) :
  (∀ x, f x = g x) → forallb f l = forallb g l.
Proof. intros H. induction l as [|x l IH]; simpl; [done | by rewrite H, IH]. Qed.

(** The loop over the required fields completes when every field has a
    value; it reports whether all of them are filled, touches no field it
    does not visit, and keeps the error divs that lie inside the parent of
    no field it visits. *)
Lemma validate_loop (l : list nat) (b : bool) (d : Doc) :
  Forall (hasValue d) l →
  ∃ d', foldM validateField b l d
        = Normal (b && forallb (λ j, negb (from_option isBlank false (elements d !! j))) l) d'
      ∧ loopRel d d'
      ∧ (∀ j, j ∉ l → elements d' !! j = elements d !! j)
      ∧ (∀ fe, fe ∈ fieldErrors d →
           (∀ k e, k ∈ l → elements d !! k = Some e →
                   contains (el_parent e) (fe_parent fe) = false) →
           fe ∈ fieldErrors d').
Proof.
  revert b d. induction l as [|x l IH]; intros b d Hall.
  - exists d. rewrite andb_true_r. split_and!; auto using loopRel_refl.
  - apply Forall_cons in Hall as [(e & v & He & Hv) Hall].
    cbn [foldM forallb]. exec_unfold. rewrite He. cbn [from_option].
    unfold isBlank. rewrite Hv.
    set (d1 := final (validateField b x d)).
    assert (∃ c g b1, validateField b x d = Normal b1 d1
              ∧ b1 = b && negb (negb (Js.truthy (Js.trim v)))
              ∧ d1 = set_elements (alter (with_borderColor c) x) (set_fieldErrors g d)
              ∧ ∀ fe, fe ∈ fieldErrors d → contains (el_parent e) (fe_parent fe) = false →
                      fe ∈ g (fieldErrors d))
      as (c & g & b1 & Hstep & Hb1 & Hd1 & Hkeep).
    { subst d1. destruct (Js.trim v) as [|c0 r] eqn:Htrim.
      - rewrite (validateField_blank b x d e v) by done.
        eexists _, (λ l0, removeFirstError (el_parent e) l0 ++ [_]), _.
        split_and!; [done | by rewrite andb_false_r | reflexivity |].
        intros fe Hfe Hne. apply elem_of_app. left.
        by apply removeFirstError_keeps.
      - rewrite (validateField_filled b x d e v) by congruence.
        eexists _, _, _. split_and!; [done | by rewrite andb_true_r | done |].
        intros fe Hfe Hne. by apply removeFirstError_keeps. }
    rewrite Hstep.
    assert (loopRel d d1) as Hrel by (rewrite Hd1; apply loopRel_border).
    destruct (IH b1 d1) as (d' & Hrun & Hrel' & Hout & Herr).
    { eapply Forall_impl; [exact Hall |]. intros j Hj. by eapply loopRel_hasValue. }
    exists d'. split_and!.
    + rewrite Hrun. f_equal. rewrite Hb1, <- andb_assoc. f_equal. f_equal.
      apply forallb_pointwise. intros j. destruct Hrel as [_ Hrel]. specialize (Hrel j).
      destruct (elements d !! j) as [ej|], (elements d1 !! j) as [ej'|]; try done.
      simpl. unfold isBlank. by rewrite (sameButBorder_value ej ej').
    + by eapply loopRel_trans.
    + intros j Hj. apply not_elem_of_cons in Hj as [Hjx Hjl].
      rewrite (Hout j Hjl), Hd1. simpl. by rewrite list_lookup_alter_ne.
    + intros fe Hfe Hpar. apply Herr.
      * rewrite Hd1. simpl. apply Hkeep; [done |].
        apply (Hpar x e); [by left | done].
      * intros k ek Hk Hek.
        destruct Hrel as [_ Hrel]. specialize (Hrel k). rewrite Hek in Hrel.
        destruct (elements d !! k) as [ek0|] eqn:Ek0; [| done].
        rewrite <- (sameButBorder_parent ek0 ek) by done.
        apply (Hpar k ek0); [by right | done].
Qed.

Lemma NoDup_querySelectorAll (p : Element → bool) (d : Doc) : NoDup (querySelectorAll p d).
Proof.
  unfold querySelectorAll.
  apply NoDup_ListNoDup, List.NoDup_filter, NoDup_ListNoDup, NoDup_seq.
Qed.

Lemma foldM_final_inv {A B} (f : B → A → Exec B) (I : Doc → Prop) :
  (∀ b x d, I d → I (final (f b x d))) →
  ∀ l b d, I d → I (final (foldM f b l d)).
Proof.
  intros Hf l. induction l as [|x l IH]; intros b d Hd; [done |].
  simpl. exec_unfold. specialize (Hf b x d Hd).
  destruct (f b x d) as [b1 d1 | err d1]; simpl in *; [by apply IH | done].
Qed.

Lemma validateField_forms (b : bool) (j : nat) (d : Doc) :
  forms (final (validateField b j d)) = forms d.
Proof.
  unfold validateField, trimmedValue, showFieldError, clearFieldError,
    getElement, updateElement.
  exec_cases; done.
Qed.

Lemma textOrFileRule_forms (form : nat) (b : bool) (d : Doc) :
  forms (final (textOrFileRule form b d)) = forms d.
Proof.
  unfold textOrFileRule, trimmedValue, getElement, updateElement.
  exec_cases; done.
Qed.

Lemma validateForm_forms (form : nat) (d : Doc) :
  forms (final (validateForm form d)) = forms d.
Proof.
  unfold validateForm. exec_unfold. cbn [id].
  pose proof (foldM_final_inv validateField (λ d0, forms d0 = forms d)) as Hloop.
  specialize (Hloop (λ b x d0 H, eq_trans (validateField_forms b x d0) H)
                    (querySelectorAll (within form isRequired) d) true d eq_refl).
  destruct (foldM validateField true _ d) as [ok d1 | err d1]; simpl in Hloop; [| done].
  unfold getAction. destruct (forms d1 !! form) as [a|]; [| done].
  destruct (isAnalyze a); [| done].
  by rewrite textOrFileRule_forms.
Qed.

(** On an analyze form the submit listener never calls [preventDefault]. *)
Lemma analyze_never_prevented (d : Doc) (form : nat) (action : option string) :
  forms d !! form = Some action → isAnalyze action = true →
  ∀ d', submitValidate form d ≠ Normal true d'.
Proof.
  intros Hform Han d'. unfold submitValidate. exec_unfold.
  pose proof (validateForm_forms form d) as Hforms.
  destruct (validateForm form d) as [ok d1 | err d1]; simpl in Hforms; [| done].
  destruct ok; simpl; [done |].
  unfold getAction. rewrite Hforms, Hform, Han. done.
Qed.


(** On a form other than the analyze form, a blank required field makes
    the submit listener prevent the default.  When the loop reaches the
    field it appends the error div to the field's parent and tints the
    border; the border is still tinted when the listener returns, and the
    error div is still there when the parent of no required field visited
    later is or contains the parent of this one. *)
Lemma submit_blocks_blank (d : Doc) (form : nat) (action : option string)
    (j : nat) (e : Element) :
  forms d !! form = Some action → isAnalyze action = false →
  Forall (hasValue d) (querySelectorAll (within form isRequired) d) →
  elements d !! j = Some e → el_form e = Some form → required e = true →
  isBlank e = true →
  ∃ pre suf b1 d1 d2 d' fe,
    querySelectorAll (within form isRequired) d = pre ++ j :: suf
    ∧ foldM validateField true pre d = Normal b1 d1
    ∧ validateField b1 j d1 = Normal false d2
    ∧ last (fieldErrors d2) = Some fe
    ∧ fe_parent fe = el_parent e ∧ fe_text fe = "This field is required"
    ∧ borderAt d2 j = Some "#e74c3c"
    ∧ foldM validateField false suf d2 = Normal false d'
    ∧ submitValidate form d = Normal true d'
    ∧ borderAt d' j = Some "#e74c3c"
    ∧ ((∀ k ek, k ∈ suf → elements d !! k = Some ek →
                contains (el_parent ek) (el_parent e) = false) →
       fe ∈ fieldErrors d').
Proof.
  intros Hform Han Hall He Hin Hreq Hblank.
  assert (∃ v, value e = Some v ∧ Js.trim v = "") as (v & Hv & Htrim).
  { unfold isBlank in Hblank. destruct (value e) as [v|]; [| done].
    exists v. split; [done |]. apply negb_true_iff in Hblank. by apply truthy_false. }
  assert (j ∈ querySelectorAll (within form isRequired) d) as Hj.
  { apply elem_of_querySelectorAll. exists e. split; [done |].
    unfold within, inForm, isRequired. rewrite Hreq, andb_true_r.
    by apply bool_decide_eq_true. }
  pose proof (NoDup_querySelectorAll (within form isRequired) d) as Hnodup.
  apply list_elem_of_split in Hj as (pre & suf & Hsplit).
  rewrite Hsplit in Hall, Hnodup.
  apply Forall_app in Hall as [Hpre Hsuf]. apply Forall_cons in Hsuf as [_ Hsuf].
  apply NoDup_app in Hnodup as (_ & _ & Hnodup). apply NoDup_cons in Hnodup as [Hjsuf _].
  destruct (validate_loop pre true d Hpre) as (d1 & Hrun1 & Hrel1 & _ & _).
  destruct (loopRel_lookup d d1 j e Hrel1 He) as (e1 & He1 & Hv1 & Hp1).
  rewrite Hv in Hv1.
  pose proof (validateField_blank
                (forallb (λ k, negb (from_option isBlank false (elements d !! k))) pre)
                j d1 e1 v He1 Hv1 Htrim) as Hstep.
  rewrite Hp1 in Hstep.
  set (d2 := set_elements _ _) in Hstep.
  assert (loopRel d d2) as Hrel2.
  { eapply loopRel_trans; [exact Hrel1 |]. subst d2. unfold appendErrorDiv.
    apply (loopRel_border d1 _ j (λ l, removeFirstError (el_parent e) l ++ [_])). }
  assert (Forall (hasValue d2) suf) as Hsuf2.
  { eapply Forall_impl; [exact Hsuf |]. intros k Hk. by eapply loopRel_hasValue. }
  destruct (validate_loop suf false d2 Hsuf2) as (d' & Hrun2 & Hrel' & Hout & Herr).
  cbn [andb] in Hrun1, Hrun2.
  assert (elements d2 !! j = Some (with_borderColor "#e74c3c" e1)) as Hj2.
  { subst d2. simpl. by rewrite list_lookup_alter_eq, He1. }
  assert (foldM validateField true (pre ++ j :: suf) d = Normal false d') as Hloop.
  { rewrite foldM_app, Hrun1. cbn [foldM]. exec_unfold. by rewrite Hstep. }
  exists pre, suf. eexists. exists d1, d2, d'. eexists. split_and!; try done.
  - subst d2. simpl. apply last_snoc.
  - done.
  - done.
  - unfold borderAt. by rewrite Hj2.
  - unfold submitValidate, validateForm. exec_unfold. cbn [id].
    rewrite Hsplit, Hloop. unfold getAction.
    destruct (loopRel_trans _ _ _ Hrel2 Hrel') as [Hf _].
    rewrite Hf, Hform, Han. cbn. by rewrite Hf, Hform, Han.
  - unfold borderAt. by rewrite (Hout j Hjsuf), Hj2.
  - intros Hpar. apply Herr.
    + subst d2. simpl. apply elem_of_app. right. by left.
    + intros k ek Hk Hek. simpl.
      destruct Hrel2 as [_ Hrel2]. specialize (Hrel2 k). rewrite Hek in Hrel2.
      destruct (elements d !! k) as [ek0|] eqn:Ek0; [| done].
      rewrite <- (sameButBorder_parent ek0 ek) by done.
      by apply (Hpar k ek0).
Qed.

(** An error div does not outlive a later valid field whose parent is or
    contains the parent of the blank one: on a form with a blank required
    field followed by a filled one, and no error div inside the parent of
    the second to begin with, the listener prevents the default and tints
    the blank field, but the error divs of the page are as they were. *)
Lemma later_field_removes_error (d : Doc) (form : nat) (action : option string)
    (f1 f2 : nat) (e1 e2 : Element) (v2 : string) :
  forms d !! form = Some action → isAnalyze action = false →
  querySelectorAll (within form isRequired) d = [f1; f2] →
  elements d !! f1 = Some e1 → isBlank e1 = true →
  elements d !! f2 = Some e2 → value e2 = Some v2 → Js.trim v2 ≠ "" →
  contains (el_parent e2) (el_parent e1) = true →
  errorsUnder (el_parent e2) (fieldErrors d) = 0 →
  ∃ d', submitValidate form d = Normal true d'
        ∧ fieldErrors d' = fieldErrors d
        ∧ borderAt d' f1 = Some "#e74c3c".
Proof.
  intros Hform Han Hq He1 Hblank He2 Hv2 Hfilled Hin Hnone.
  assert (∃ v, value e1 = Some v ∧ Js.trim v = "") as (v1 & Hv1 & Htrim).
  { unfold isBlank in Hblank. destruct (value e1) as [v|]; [| done].
    exists v. split; [done |]. apply negb_true_iff in Hblank. by apply truthy_false. }
  assert (f1 ≠ f2) as Hne.
  { pose proof (NoDup_querySelectorAll (within form isRequired) d) as Hnodup.
    rewrite Hq in Hnodup. apply NoDup_cons in Hnodup as [Hnot _].
    intros ->. apply Hnot. by left. }
  assert (errorsUnder (el_parent e1) (fieldErrors d) = 0) as Hnone1.
  { pose proof (errorsUnder_mono (el_parent e1) (el_parent e2) (fieldErrors d) Hin). lia. }
  pose proof (validateField_blank true f1 d e1 v1 He1 Hv1 Htrim) as Hstep1.
  set (d1 := set_elements _ _) in Hstep1.
  assert (elements d1 !! f2 = Some e2) as He2'.
  { subst d1. simpl. by rewrite list_lookup_alter_ne. }
  pose proof (validateField_filled false f2 d1 e2 v2 He2' Hv2 Hfilled) as Hstep2.
  set (d2 := set_elements _ _) in Hstep2.
  assert (fieldErrors d2 = fieldErrors d) as Herrs.
  { subst d2 d1. unfold appendErrorDiv. simpl.
    rewrite (removeFirstError_none _ _ Hnone1). by apply removeFirstError_snoc. }
  exists d2. split_and!; [| exact Herrs |].
  - unfold submitValidate, validateForm. exec_unfold. cbn [id]. rewrite Hq.
    cbn [foldM]. exec_unfold. rewrite Hstep1, Hstep2.
    unfold getAction. subst d2 d1. unfold appendErrorDiv.
    cbn [forms set_elements set_fieldErrors]. rewrite Hform, Han.
    cbn. by rewrite Hform, Han.
  - unfold borderAt. subst d2 d1. simpl.
    rewrite list_lookup_alter_ne, list_lookup_alter_eq, He1 by done. done.
Qed.

(** C4 fails on the code.  On a form other than the analyze form with two
    required inputs under one parent, the first blank and the second
    filled, the submit listener prevents the default and the loop does
    append the error div when it visits the blank field, but clearing the
    error of the second field removes it: when the listener returns the
    blank field has the tinted border and no inline error.  And on the
    analyze form with the textarea required, no text and no file, the
    listeners do not prevent the default, yet the loop over the required
    fields has attached an inline error to the textarea. *)
Theorem blank_field_error_lost :
  (let d1 := final (validateField true 0 sharedParentPage) in
   let o := submitValidate 0 sharedParentPage in
   fieldErrors d1 = [mkFieldError [5] 0 "This field is required"]
   ∧ o = Normal true (final o)
   ∧ blankAt (final o) 0 = true
   ∧ borderAt (final o) 0 = Some "#e74c3c"
   ∧ fieldErrors (final o) = [])
  ∧ (let o := (syncRequired 0 (Some 1);; submitValidate 0) analyzePage in
     o = Normal false (final o)
     ∧ requiredAt (final o) 0 = Some true
     ∧ fieldErrors (final o) = [mkFieldError [1] 0 "This field is required"]).
Proof. vm_compute. split_and!; reflexivity. Qed.

(** The analyze form wires [syncRequired] to the input event of the
    textarea, to the change event of the chooser and, ahead of the
    validating listener, to the submit event of the form. *)
Lemma setupForm_analyze (d : Doc) (form ta cf : nat) (action : option string) :
  forms d !! form = Some action → isAnalyze action = true →
  querySelector (within form isCvTextarea) d = Some ta →
  querySelector (within form isCvFile) d = Some cf →
  completes (setupForm form d) = true
  ∧ listeners (final (setupForm form d))
    = listeners d
      ++ [mkListener (OnElement ta) EvInput (HSyncRequired ta (Some cf));
          mkListener (OnElement cf) EvChange (HSyncRequired ta (Some cf));
          mkListener (OnForm form) EvSubmit (HSubmitSync ta (Some cf));
          mkListener (OnForm form) EvSubmit (HSubmitValidate form)].
Proof.
  intros Hform Han Hta Hcf. unfold setupForm, getAction, addEventListener.
  exec_unfold. rewrite Hform, Han. cbn [id]. rewrite Hta, Hcf. cbn.
  split; [done |]. by rewrite <- !app_assoc.
Qed.

Lemma setupForm_complete (d : Doc) (i : nat) :
  formComplete d i →
  ∃ extra, setupForm i d
           = Normal tt (set_listeners
                          (λ ls, ls ++ extra ++ [mkListener (OnForm i) EvSubmit (HSubmitValidate i)])
                          d).
Proof.
  intros (a & Hform & Hparts). unfold setupForm, getAction, addEventListener.
  exec_unfold. rewrite Hform. cbn [id]. destruct (isAnalyze a) eqn:Han.
  - destruct (Hparts eq_refl) as [[ta ->] [cf ->]]. cbn.
    eexists [_; _; _]. unfold set_listeners. cbn. by rewrite <- !app_assoc.
  - exists []. reflexivity.
Qed.

(** On a page all of whose analyze forms are complete,
    [initializeFormValidation] completes, leaves forms and elements as
    they are and gives every form its validating submit listener. *)
Lemma initializeFormValidation_completes (d : Doc) :
  (∀ i, i < length (forms d) → formComplete d i) →
  completes (initializeFormValidation d) = true
  ∧ forms (final (initializeFormValidation d)) = forms d
  ∧ elements (final (initializeFormValidation d)) = elements d
  ∧ ∀ i, i < length (forms d) →
      mkListener (OnForm i) EvSubmit (HSubmitValidate i)
      ∈ listeners (final (initializeFormValidation d)).
Proof.
  intros Hall. unfold initializeFormValidation. exec_unfold. cbn [id].
  assert (∀ l d0, forms d0 = forms d → elements d0 = elements d →
            (∀ i, i ∈ l → i < length (forms d)) →
            completes (forEach setupForm l d0) = true
            ∧ forms (final (forEach setupForm l d0)) = forms d
            ∧ elements (final (forEach setupForm l d0)) = elements d
            ∧ (∀ x, x ∈ listeners d0 → x ∈ listeners (final (forEach setupForm l d0)))
            ∧ ∀ i, i ∈ l →
                mkListener (OnForm i) EvSubmit (HSubmitValidate i)
                ∈ listeners (final (forEach setupForm l d0))) as Hloop.
  { induction l as [|i l IH]; intros d0 Hf He Hl.
    - split_and!; try done. intros i Hi. by apply elem_of_nil in Hi.
    - assert (formComplete d0 i) as Hi.
      { destruct (Hall i) as (a & Ha & Hparts); [apply Hl; by left |].
        exists a. unfold querySelector in *. by rewrite Hf, He. }
      destruct (setupForm_complete d0 i Hi) as [extra Hstep].
      unfold forEach in *. cbn [foldM]. exec_unfold. rewrite Hstep.
      destruct (IH (set_listeners
                      (λ ls, ls ++ extra ++ [mkListener (OnForm i) EvSubmit (HSubmitValidate i)])
                      d0)) as (Hc & Hf' & He' & Hmono & Hreg); try done.
      { intros k Hk. apply Hl. by right. }
      split_and!; try done.
      + intros x Hx. apply Hmono. simpl. apply elem_of_app. by left.
      + intros k Hk. apply elem_of_cons in Hk as [-> | Hk]; [| by apply Hreg].
        apply Hmono. simpl. rewrite !elem_of_app. right. right. by left. }
  destruct (Hloop (seq 0 (length (forms d))) d eq_refl eq_refl) as (Hc & Hf & He & _ & Hreg).
  { intros i Hi. apply elem_of_seq in Hi. lia. }
  split_and!; try done.
  intros i Hi. apply Hreg. apply elem_of_seq. lia.
Qed.

(** ** File validation *)

Lemma maxFileSize_eq : maxFileSize = 8388608%N.
Proof. reflexivity. Qed.

Lemma nameAllowed_spec (name : string) :
  nameAllowed name = true ↔
  (∃ a, Js.toLowerCase name = a +:+ ".pdf") ∨ (∃ a, Js.toLowerCase name = a +:+ ".docx").
Proof. unfold nameAllowed. by rewrite orb_true_iff, !endsWith_spec. Qed.

Lemma files_chooser (e : Element) : kind e = KFileInput → files e = Some (file_list e).
Proof. intros H. unfold files. by rewrite H. Qed.

Lemma clear_chooser (d : Doc) (j : nat) (e : Element) :
  elements d !! j = Some e → kind e = KFileInput →
  setValue j "" d = Normal tt (set_elements (alter (with_file_list []) j) d).
Proof.
  intros He Hk. unfold setValue. exec_unfold.
  by rewrite (getElement_Some _ _ _ He), Hk.
Qed.

(** C3: for a chooser whose first selected file is [file], the change
    listener completes, and the file stays selected if and only if its
    name ends in .pdf or .docx, ignoring case, and its size is at most
    8 MiB.  In that case a success notification naming the file is shown
    and the badge, when its two elements exist, shows the name.  Otherwise
    the selection is cleared, so that the value of the chooser is empty,
    an error notification is shown and the badge is left alone. *)
Theorem file_validation (d : Doc) (this : nat) (e : Element) (file : File) (rest : list File) :
  elements d !! this = Some e → kind e = KFileInput → file_list e = file :: rest →
  let name := file_name file in
  let allowed :=
    ((∃ a, Js.toLowerCase name = a +:+ ".pdf") ∨ (∃ a, Js.toLowerCase name = a +:+ ".docx"))
    ∧ (file_size file ≤ 8388608)%N in
  let d' := final (onFileChange this d) in
  completes (onFileChange this d) = true
  ∧ ((file_list <$> elements d' !! this) = Some (file :: rest) ↔ allowed)
  ∧ (allowed →
       elements d' = elements d
       ∧ notifications d'
         = notifications d ++ [mkNotification ("File selected: " +:+ name) "success"]
       ∧ upload d' = closeFab (showBadge name (upload d))
       ∧ (is_Some (badgeDisplay (upload d)) → is_Some (fileNameText (upload d)) →
          badgeDisplay (upload d') = Some "inline-flex"
          ∧ fileNameText (upload d') = Some name))
  ∧ (¬ allowed →
       (∃ message, notifications d' = notifications d ++ [mkNotification message "error"])
       ∧ (value <$> elements d' !! this) = Some (Some "")
       ∧ (files <$> elements d' !! this) = Some (Some [])
       ∧ upload d' = upload d).
Proof.
  intros He Hk Hfiles name allowed d'.
  assert (allowed ↔ nameAllowed name = true ∧ (maxFileSize <? file_size file)%N = false)
    as Hallowed.
  { subst allowed. by rewrite nameAllowed_spec, N.ltb_ge, maxFileSize_eq. }
  assert (onFileChange this d
          = if negb (nameAllowed name) then
              Normal tt (set_elements (alter (with_file_list []) this)
                (set_notifications
                   (λ l, l ++ [mkNotification "Only PDF or DOCX files are accepted." "error"]) d))
            else if (maxFileSize <? file_size file)%N then
              Normal tt (set_elements (alter (with_file_list []) this)
                (set_notifications
                   (λ l, l ++ [mkNotification "File is too large (max 8MB)." "error"]) d))
            else
              Normal tt (set_upload closeFab (set_upload (showBadge name)
                (set_notifications
                   (λ l, l ++ [mkNotification ("File selected: " +:+ name) "success"]) d))))
    as Hrun.
  { unfold onFileChange. exec_unfold.
    rewrite (getElement_Some _ _ _ He), (files_chooser e Hk), Hfiles. fold name.
    destruct (nameAllowed name); cbn [negb].
    - destruct (maxFileSize <? file_size file)%N; [| done].
      unfold showNotification. exec_unfold. by erewrite clear_chooser.
    - unfold showNotification. exec_unfold. by erewrite clear_chooser. }
  subst d'. rewrite Hrun.
  assert (∀ g, (file_list <$> elements (set_elements (alter (with_file_list []) this)
                                         (set_notifications g d)) !! this)
               ≠ Some (file :: rest)) as Hcleared.
  { intros g. simpl. rewrite list_lookup_alter_eq, He. done. }
  assert (∀ g, (value <$> elements (set_elements (alter (with_file_list []) this)
                                      (set_notifications g d)) !! this)
               = Some (Some "")) as Hvalue.
  { intros g. simpl. rewrite list_lookup_alter_eq, He. simpl. unfold value. simpl.
    by rewrite Hk. }
  assert (∀ g, (files <$> elements (set_elements (alter (with_file_list []) this)
                                      (set_notifications g d)) !! this)
               = Some (Some [])) as Hcfiles.
  { intros g. simpl. rewrite list_lookup_alter_eq, He. simpl. unfold files. simpl.
    by rewrite Hk. }
  destruct (nameAllowed name) eqn:Hname; cbn [negb];
    [destruct (maxFileSize <? file_size file)%N eqn:Hsize |].
  - split_and!; [done | | |].
    + rewrite Hallowed. split; [by intros ?%Hcleared | by intros [_ ?]].
    + rewrite Hallowed. by intros [_ ?].
    + intros _. split_and!; eauto.
  - split_and!; [done | | |].
    + rewrite Hallowed. split; [done |]. intros _. simpl. by rewrite He, <- Hfiles.
    + intros _. split_and!; [done | done | done |].
      intros [b Hb] [n Hn]. simpl. unfold showBadge. rewrite Hb, Hn. simpl.
      unfold closeFab. simpl. by destruct (fabOpen (upload d)) as [[]|].
    + rewrite Hallowed. intros Hno. by destruct Hno.
  - split_and!; [done | | |].
    + rewrite Hallowed. split; [by intros ?%Hcleared | by intros [? _]].
    + rewrite Hallowed. by intros [? _].
    + intros _. split_and!; eauto.
Qed.

Lemma file_validation_witness :
  completes (onFileChange 1 (chosen "Resume.PDF" 8388608)) = true
  ∧ (file_list <$> elements (final (onFileChange 1 (chosen "Resume.PDF" 8388608))) !! 1)
    = Some [mkFile "Resume.PDF" 8388608]
  ∧ fileNameText (upload (final (onFileChange 1 (chosen "Resume.PDF" 8388608))))
    = Some "Resume.PDF".
Proof.
  destruct (file_validation (chosen "Resume.PDF" 8388608) 1
              (mkElement KFileInput "cv_file" "cv_file" (Some 0) [2] false ""
                         [mkFile "Resume.PDF" 8388608] "")
              (mkFile "Resume.PDF" 8388608) [] eq_refl eq_refl eq_refl)
    as (Hdone & Hkept & Hok & _).
  assert (((∃ a, Js.toLowerCase "Resume.PDF" = a +:+ ".pdf")
           ∨ (∃ a, Js.toLowerCase "Resume.PDF" = a +:+ ".docx"))
          ∧ (8388608 ≤ 8388608)%N) as Hallowed.
  { split; [left; by exists "resume" | reflexivity]. }
  split_and!.
  - exact Hdone.
  - by apply Hkept.
  - destruct (Hok Hallowed) as (_ & _ & _ & Hbadge).
    destruct Hbadge as [_ Hname]; [by eexists | by eexists |]. exact Hname.
Defined.

Example ex_exe_rejected :
  let d' := final (onFileChange 1 (chosen "resume.exe" 1024)) in
  (files <$> elements d' !! 1) = Some (Some [])
  ∧ notifications d' = [mkNotification "Only PDF or DOCX files are accepted." "error"]
  ∧ badgeDisplay (upload d') = Some "none".
Proof. vm_compute. done. Qed.

Example ex_too_large :
  let d' := final (onFileChange 1 (chosen "resume.pdf" (9 * 1024 * 1024))) in
  (files <$> elements d' !! 1) = Some (Some [])
  ∧ notifications d' = [mkNotification "File is too large (max 8MB)." "error"].
Proof. vm_compute. done. Qed.

(** The change event of the chooser reaches [syncRequired] before the
    validating listener, which is registered later.  When the file is
    rejected the marker was computed with the file still selected: the
    textarea is left without [required], with no text and no file, until
    the next evaluation. *)
Lemma marker_after_rejected_file :
  let d := final ((syncRequired 0 (Some 1);; onFileChange 1) (chosen "resume.exe" 1024)) in
  (required <$> elements d !! 0) = Some false
  ∧ (text <$> elements d !! 0) = Some ""
  ∧ hasFileOf (Some 1) d = false
  ∧ (required <$> elements (final (syncRequired 0 (Some 1) d)) !! 0) = Some true.
Proof. vm_compute. done. Qed.

(** ** Pages that miss an element *)

(** [initializeFormValidation] dereferences the textarea and the chooser
    of every analyze form without a check, [showCVTips] the analyze form,
    [createSkillTagsContainer] and [updateSkillsInput] the skills input. *)
Lemma setupForm_throws (d : Doc) (form : nat) (action : option string) :
  forms d !! form = Some action → isAnalyze action = true →
  querySelector (within form isCvTextarea) d = None
  ∨ querySelector (within form isCvFile) d = None →
  completes (setupForm form d) = false.
Proof.
  intros Hform Han Hmiss. unfold setupForm, getAction, addEventListener.
  exec_unfold. rewrite Hform, Han. cbn [id].
  destruct (querySelector (within form isCvTextarea) d) as [ta|]; [| done].
  destruct Hmiss as [? | ->]; done.
Qed.

Lemma showCVTips_throws (d : Doc) :
  Forall (λ a, isAnalyze a = false) (forms d) → completes (showCVTips d) = false.
Proof.
  intros Hnone. unfold showCVTips. exec_unfold. cbn [id].
  replace (list_find (λ a, Is_true (isAnalyze a)) (forms d)) with (@None (nat * option string));
    [done |].
  symmetry. apply list_find_None. eapply Forall_impl; [exact Hnone |].
  intros a Ha. rewrite Ha. simpl. tauto.
Qed.

Lemma addSkillTag_throws (d : Doc) (skill : string) :
  querySelector isSkillsInput d = None → skill ≠ "" →
  completes (addSkillTag skill d) = false.
Proof.
  intros Hnone Hskill. unfold addSkillTag, createSkillTagsContainer, updateSkillsInput.
  destruct skill; [done |]. exec_unfold. cbn [Js.truthy negb id].
  unfold querySelector in *.
  destruct (tagsContainer d); cbn; by rewrite Hnone.
Qed.

(** C6 at pages that miss an element: on a page whose analyze form has no
    [#cv_file], [initializeFormValidation] throws after registering the
    input listener of the textarea, so no form of the page gets its submit
    listener; on a page with a CV textarea and no analyze form
    [initializeCVAnalysis] throws in [showCVTips]; on a page without the
    skills input [addSkillTag] throws; and on a complete page the input
    listener of the skills input throws for the text "java". *)
Theorem setup_throws_on_missing_elements :
  initializeFormValidation pageWithoutChooser
  = Throws "TypeError: cvFile is null"
      (set_listeners (λ _, [mkListener (OnElement 0) EvInput (HSyncRequired 0 None)])
                     pageWithoutChooser)
  ∧ initializeCVAnalysis pageWithoutAnalyzeForm
    = Throws "TypeError: cvForm is null"
        (set_listeners (λ _, [mkListener (OnElement 0) EvInput (HCharCounter [1])])
           (set_decorations (λ _, [CharCounter [1]]) pageWithoutAnalyzeForm))
  ∧ addSkillTag "Python" pageWithoutSkillsInput
    = Throws "TypeError: skillsInput is null" pageWithoutSkillsInput
  ∧ showSkillSuggestions "java" samplePage
    = Throws "TypeError: input.parentNode is undefined" samplePage.
Proof. split_and!; reflexivity. Qed.

(** The initialisers that do check complete on a page without their
    element. *)
Lemma guarded_setup_skips :
  initializeFileValidation pageWithoutChooser = Normal tt pageWithoutChooser
  ∧ initializeJobMatching pageWithoutSkillsInput = Normal tt pageWithoutSkillsInput
  ∧ initializeCVAnalysis pageWithoutSkillsInput = Normal tt pageWithoutSkillsInput.
Proof. split_and!; reflexivity. Qed.

(** * Further properties *)

(** ** Suggestions *)

(** Whatever the text and the page, [showSkillSuggestions] attaches no
    dropdown: it leaves the page as it was but for the first existing
    dropdown, which it removes, and it throws exactly when it has
    something to show, a non-empty list for a text of two characters or
    more. *)
Theorem suggestions_never_attached (t : string) (d : Doc) :
  final (showSkillSuggestions t d) = set_dropdowns (λ l, tail l) d
  ∧ (completes (showSkillSuggestions t d) = false ↔ filtered t ≠ [] ∧ 1 < Js.length t).
Proof.
  unfold showSkillSuggestions.
  destruct (filtered t) as [|s F] eqn:E; destruct (Nat.ltb_spec 1 (Js.length t)) as [Ht | Ht].
  - split; [reflexivity |]. split; [discriminate | intros [? _]; done].
  - split; [reflexivity |]. split; [discriminate | intros [? _]; done].
  - split; [reflexivity |]. split; [done | reflexivity].
  - split; [reflexivity |]. split; [discriminate | intros [_ ?]; lia].
Qed.

Lemma NoDup_vocabulary : NoDup vocabulary.
Proof. apply (bool_decide_unpack (NoDup vocabulary)). by vm_compute. Qed.

(** The suggestions keep the order of the vocabulary and name no skill
    twice, whatever the text. *)
Theorem suggestions_ordered_distinct (t : string) :
  filtered t `sublist_of` vocabulary
  ∧ NoDup (filtered t)
  ∧ length (filtered t) ≤ 34.
Proof.
  pose proof (filtered_sublist t) as Hsub. split_and!.
  - exact Hsub.
  - eapply sublist_NoDup; [apply NoDup_vocabulary | exact Hsub].
  - apply sublist_length in Hsub. exact Hsub.
Qed.

Lemma lowerChar_idem (c : ascii) : Js.lowerChar (Js.lowerChar c) = Js.lowerChar c.
Proof. destruct c as [[] [] [] [] [] [] [] []]; reflexivity. Qed.

Lemma isSpace_lowerChar (c : ascii) : Js.isSpace (Js.lowerChar c) = Js.isSpace c.
Proof. destruct c as [[] [] [] [] [] [] [] []]; reflexivity. Qed.

Lemma comma_lowerChar (c : ascii) : Ascii.eqb (Js.lowerChar c) "," = Ascii.eqb c ",".
Proof. destruct c as [[] [] [] [] [] [] [] []]; reflexivity. Qed.

Lemma toLowerCase_idem (s : string) : Js.toLowerCase (Js.toLowerCase s) = Js.toLowerCase s.
Proof.
  induction s as [|c s IH]; [done |]. cbn [Js.toLowerCase].
  by rewrite lowerChar_idem, IH.
Qed.

Lemma trimStart_lower (s : string) :
  Js.trimStart (Js.toLowerCase s) = Js.toLowerCase (Js.trimStart s).
Proof.
  induction s as [|c s IH]; [done |]. cbn [Js.toLowerCase Js.trimStart].
  rewrite isSpace_lowerChar. by destruct (Js.isSpace c).
Qed.

Lemma trimEnd_lower (s : string) :
  Js.trimEnd (Js.toLowerCase s) = Js.toLowerCase (Js.trimEnd s).
Proof.
  induction s as [|c s IH]; [done |]. cbn [Js.toLowerCase Js.trimEnd].
  rewrite IH, isSpace_lowerChar.
  destruct (Js.trimEnd s) as [|x r]; cbn [Js.toLowerCase]; [| done].
  by destruct (Js.isSpace c).
Qed.

Lemma trim_lower (s : string) : Js.trim (Js.toLowerCase s) = Js.toLowerCase (Js.trim s).
Proof. unfold Js.trim. by rewrite trimStart_lower, trimEnd_lower. Qed.

Lemma split_comma_lower (s : string) :
  Js.split_comma (Js.toLowerCase s) = map Js.toLowerCase (Js.split_comma s).
Proof.
  induction s as [|c s IH]; [done |]. cbn [Js.toLowerCase Js.split_comma].
  rewrite comma_lowerChar, IH. destruct (Ascii.eqb c ","); [done |].
  by destruct (Js.split_comma s).
Qed.

Lemma suggestible_lower (t s : string) :
  suggestible (Js.toLowerCase t) s = suggestible t s.
Proof.
  unfold suggestible, alreadyEntered.
  rewrite toLowerCase_idem, split_comma_lower. f_equal. f_equal.
  induction (Js.split_comma t) as [|seg segs IH]; [done |].
  cbn [map existsb]. by rewrite IH, trim_lower, toLowerCase_idem.
Qed.

(** The suggestions do not depend on the case of the typed text: two
    texts that agree when lower-cased get the same list. *)
Theorem suggestions_ignore_case (t1 t2 : string) :
  Js.toLowerCase t1 = Js.toLowerCase t2 → filtered t1 = filtered t2.
Proof.
  intros Heq. unfold filtered. apply List.filter_ext. intros s.
  by rewrite <- (suggestible_lower t1), <- (suggestible_lower t2), Heq.
Qed.

Lemma suggestions_ignore_case_witness : filtered "JAVAS" = filtered "javas".
Proof. apply (suggestions_ignore_case "JAVAS" "javas"). reflexivity. Defined.

(** ** Commits through the keyboard, removals *)

Lemma skillsInputAt_element (d : Doc) (j : nat) :
  skillsInputAt d j → ∃ e, elements d !! j = Some e ∧ kind e = KInput.
Proof. by intros [_ H]. Qed.

(** On the skills input, Enter and the comma commit the trimmed text as a
    new chip when it is not blank, suppress the key and leave the input
    empty, so that the backing field, which is that input, no longer names
    any chip; every other key is left alone and changes nothing. *)
Theorem key_commit (d : Doc) (j : nat) (e : Element) (key : string) :
  skillsInputAt d j → elements d !! j = Some e →
  (key = "Enter" ∨ key = "," →
   Js.trim (text e) ≠ "" →
   ∃ d', onSkillsKeydown j key d = Normal true d'
         ∧ skillTags d' = skillTags d ++ [mkChip (Js.trim (text e)) removeGlyph]
         ∧ backingField d' = Some ""
         ∧ dropdowns d' = dropdowns d)
  ∧ (key ≠ "Enter" → key ≠ "," → onSkillsKeydown j key d = Normal false d).
Proof.
  intros Hj He. split.
  - intros Hkey Hfilled. unfold onSkillsKeydown.
    replace (String.eqb key "Enter" || String.eqb key ",") with true
      by (by destruct Hkey as [-> | ->]).
    destruct (skillsInputAt_element d j Hj) as (e0 & He0 & Hk). simplify_eq.
    exec_unfold. rewrite (getElement_Some _ _ _ He).
    unfold value. rewrite Hk.
    rewrite (addSkillTag_ok d j) by done. cbn zeta.
    set (d1 := set_elements _ _).
    assert (skillsInputAt d1 j) as Hj1.
    { apply skillsInputAt_alter_text. by eapply skillsInputAt_frame. }
    rewrite setValue_text by (by apply skillsInputAt_element).
    eexists. split_and!; [reflexivity | reflexivity | | reflexivity].
    by apply backingField_alter_text.
  - intros H1 H2. unfold onSkillsKeydown.
    apply String.eqb_neq in H1, H2. by rewrite H1, H2.
Qed.

Lemma key_commit_witness :
  let d := set_elements (alter (with_text " Rust ") 0) samplePage in
  (∃ d', onSkillsKeydown 0 "," d = Normal true d'
         ∧ skillTags d' = [mkChip "Rust" removeGlyph]
         ∧ backingField d' = Some ""
         ∧ dropdowns d' = [])
  ∧ onSkillsKeydown 0 "a" d = Normal false d.
Proof.
  intros d.
  destruct (key_commit d 0 (mkElement KInput "" "user_skills" (Some 0) [7] true " Rust " [] "") ",")
    as [Hcommit _].
  { split; [reflexivity | by eexists]. }
  { reflexivity. }
  destruct (key_commit d 0 (mkElement KInput "" "user_skills" (Some 0) [7] true " Rust " [] "") "a")
    as [_ Hother].
  { split; [reflexivity | by eexists]. }
  { reflexivity. }
  split.
  - apply Hcommit; [by right | by vm_compute].
  - apply Hother; by vm_compute.
Defined.

Lemma delete_last {A} (l : list A) (x : A) : delete (length l) (l ++ [x]) = l.
Proof. induction l as [|y l IH]; simpl; [done | by f_equal]. Qed.

Lemma delete_beyond {A} (l : list A) (k : nat) : length l ≤ k → delete k l = l.
Proof.
  revert k. induction l as [|y l IH]; intros k Hk; [by destruct k |].
  destruct k; simpl in *; [lia |]. f_equal. apply IH. lia.
Qed.

(** Removing the chip that was just added gives back the chips there
    were, and the backing field is what the code writes for them, which is
    what the text input keeps of it: the serialisation of the chips without
    its line breaks; a click for a chip that does not exist removes none. *)
Theorem remove_undoes_add (d : Doc) (j : nat) (skill : string) :
  skillsInputAt d j → skill ≠ "" →
  (∃ d', (addSkillTag skill;; removeTag (length (skillTags d))) d = Normal tt d'
         ∧ skillTags d' = skillTags d
         ∧ backingField d' = Some (stripNewlines (serialized (skillTags d))))
  ∧ (∀ k, length (skillTags d) ≤ k →
       ∃ d', removeTag k d = Normal tt d'
             ∧ skillTags d' = skillTags d
             ∧ backingField d' = Some (stripNewlines (serialized (skillTags d)))).
Proof.
  intros Hj Hskill. split.
  - exec_unfold. rewrite (addSkillTag_ok d j) by done. cbn zeta.
    set (d1 := set_elements _ _).
    assert (skillsInputAt d1 j) as Hj1.
    { apply skillsInputAt_alter_text. by eapply skillsInputAt_frame. }
    rewrite (removeTag_ok d1 j) by done. cbn zeta.
    assert (delete (length (skillTags d)) (skillTags d1) = skillTags d) as Hdel.
    { subst d1. simpl. apply delete_last. }
    eexists. split_and!; [reflexivity | exact Hdel |].
    rewrite Hdel. apply backingField_alter_text. by eapply skillsInputAt_frame.
  - intros k Hk. rewrite (removeTag_ok d j) by done. cbn zeta.
    rewrite (delete_beyond _ _ Hk).
    eexists. split_and!; [reflexivity | reflexivity |].
    apply backingField_alter_text. by eapply skillsInputAt_frame.
Qed.

Lemma remove_undoes_add_witness :
  let d := final (addSkillTag twoLineSkill samplePage) in
  (∃ d', (addSkillTag "Go";; removeTag 1) d = Normal tt d'
         ∧ skillTags d' = [mkChip twoLineSkill removeGlyph]
         ∧ backingField d' = Some "ab")
  ∧ (∀ k, 1 ≤ k →
       ∃ d', removeTag k d = Normal tt d'
             ∧ skillTags d' = [mkChip twoLineSkill removeGlyph]
             ∧ backingField d' = Some "ab").
Proof.
  apply (remove_undoes_add (final (addSkillTag twoLineSkill samplePage)) 0 "Go").
  - split; [reflexivity | by eexists].
  - discriminate.
Defined.


(** ** Validation *)

Lemma loopRel_blankAt (d d' : Doc) (j : nat) : loopRel d d' → blankAt d' j = blankAt d j.
Proof.
  intros [_ Hrel]. specialize (Hrel j). unfold blankAt.
  destruct (elements d !! j) as [e|], (elements d' !! j) as [e'|]; try done.
  simpl. unfold isBlank. by rewrite (sameButBorder_value e e').
Qed.

Lemma validateField_step (b : bool) (j : nat) (d : Doc) :
  hasValue d j →
  ∃ g, validateField b j d
       = Normal (b && negb (blankAt d j))
           (set_elements (alter (with_borderColor (if blankAt d j then "#e74c3c" else "")) j)
              (set_fieldErrors g d)).
Proof.
  intros (e & v & He & Hv). unfold blankAt. rewrite He. cbn [from_option].
  unfold isBlank. rewrite Hv. destruct (Js.trim v) as [|c r] eqn:Htrim.
  - rewrite (validateField_blank b j d e v) by done. cbn [Js.truthy negb].
    rewrite andb_false_r.
    eexists (λ l, removeFirstError (el_parent e) l ++ [_]). reflexivity.
  - rewrite (validateField_filled b j d e v) by congruence. cbn [Js.truthy negb].
    rewrite andb_true_r. by eexists.
Qed.

(** Every field the loop visits ends with the border of its own state:
    tinted when blank, reset otherwise. *)
Lemma validate_loop_visit (l : list nat) (b : bool) (d : Doc) (j : nat) :
  NoDup l → Forall (hasValue d) l → j ∈ l →
  borderAt (final (foldM validateField b l d)) j
  = Some (if blankAt d j then "#e74c3c" else "").
Proof.
  revert b d. induction l as [|x l IH]; intros b d Hnodup Hall Hj.
  { by apply elem_of_nil in Hj. }
  apply NoDup_cons in Hnodup as [Hx Hnodup]. apply Forall_cons in Hall as [Hvx Hall].
  destruct (validateField_step b x d Hvx) as [g Hstep].
  cbn [foldM]. exec_unfold. rewrite Hstep.
  set (d1 := set_elements _ _).
  assert (loopRel d d1) as Hrel by apply loopRel_border.
  assert (Forall (hasValue d1) l) as Hall1.
  { eapply Forall_impl; [exact Hall |]. intros k Hk. by eapply loopRel_hasValue. }
  apply elem_of_cons in Hj as [-> | Hj].
  - destruct (validate_loop l (b && negb (blankAt d x)) d1 Hall1) as (d' & Hrun & _ & Hout & _).
    rewrite Hrun. cbn [final]. unfold borderAt. rewrite (Hout x Hx).
    subst d1. cbn [elements set_elements set_fieldErrors]. rewrite list_lookup_alter_eq.
    destruct Hvx as (e & v & He & _). by rewrite He.
  - rewrite (IH _ d1 Hnodup Hall1 Hj). by rewrite (loopRel_blankAt d d1).
Qed.

(** On a form other than the analyze form whose required elements are
    controls, [validateForm] completes and answers whether none of them is
    blank, and the submit listener prevents the default exactly when the
    answer is no.  Each required field ends tinted if it is blank and with
    its border reset if it is not; no other element is touched. *)
Theorem validation_verdict (d : Doc) (form : nat) (action : option string) :
  forms d !! form = Some action → isAnalyze action = false →
  Forall (hasValue d) (querySelectorAll (within form isRequired) d) →
  let fields := querySelectorAll (within form isRequired) d in
  let ok := forallb (λ j, negb (blankAt d j)) fields in
  ∃ d', validateForm form d = Normal ok d'
        ∧ submitValidate form d = Normal (negb ok) d'
        ∧ (ok = true ↔ ∀ j, j ∈ fields → blankAt d j = false)
        ∧ (∀ j, j ∈ fields → borderAt d' j = Some (if blankAt d j then "#e74c3c" else ""))
        ∧ (∀ j, j ∉ fields → elements d' !! j = elements d !! j).
Proof.
  intros Hform Han Hall fields ok.
  destruct (validate_loop fields true d Hall) as (d' & Hrun & [Hf _] & Hout & _).
  cbn [andb] in Hrun. fold (blankAt d) in Hrun.
  assert (validateForm form d = Normal ok d') as Hvalidate.
  { unfold validateForm. exec_unfold. cbn [id]. fold fields. rewrite Hrun.
    unfold getAction. by rewrite Hf, Hform, Han. }
  exists d'. split_and!.
  - exact Hvalidate.
  - unfold submitValidate. exec_unfold. rewrite Hvalidate.
    destruct ok; cbn [negb]; [done |]. unfold getAction. by rewrite Hf, Hform, Han.
  - subst ok. rewrite forallb_forall. split.
    + intros H j Hj. apply negb_true_iff, H. by apply list_elem_of_In.
    + intros H j Hj. apply negb_true_iff, H. by apply list_elem_of_In.
  - intros j Hj.
    pose proof (validate_loop_visit fields true d j
                  (NoDup_querySelectorAll _ _) Hall Hj) as Hborder.
    by rewrite Hrun in Hborder.
  - exact Hout.
Qed.

Lemma validation_verdict_witness :
  ∃ d', validateForm 0 sharedParentPage = Normal false d'
        ∧ submitValidate 0 sharedParentPage = Normal true d'
        ∧ borderAt d' 0 = Some "#e74c3c"
        ∧ borderAt d' 1 = Some "".
Proof.
  destruct (validation_verdict sharedParentPage 0 (Some "/match") eq_refl eq_refl)
    as (d' & Hv & Hs & _ & Hborder & _).
  { repeat constructor; by eexists _, _. }
  exists d'. split_and!; [exact Hv | exact Hs | |].
  - apply (Hborder 0). apply (bool_decide_unpack _). by vm_compute.
  - apply (Hborder 1). apply (bool_decide_unpack _). by vm_compute.
Defined.

(** What a visit of the loop does to the page: nothing when it throws;
    otherwise it sets the border of the field and removes the first error
    div inside the parent of the field, appending a new one to that parent
    when the field is blank. *)
Lemma validateField_cases (b : bool) (j : nat) (d : Doc) :
  final (validateField b j d) = d
  ∨ ∃ e c g,
      elements d !! j = Some e
      ∧ final (validateField b j d)
        = set_elements (alter (with_borderColor c) j) (set_fieldErrors g d)
      ∧ (g = removeFirstError (el_parent e)
         ∨ ∃ k message,
             g = λ l, removeFirstError (el_parent e) l
                      ++ [mkFieldError (el_parent e) k message]).
Proof.
  destruct (elements d !! j) as [e|] eqn:He.
  2: { left. unfold validateField, trimmedValue, getElement. exec_unfold. by rewrite He. }
  destruct (value e) as [v|] eqn:Hv.
  2: { left. unfold validateField, trimmedValue, getElement. exec_unfold.
       by rewrite He, Hv. }
  right. exists e. destruct (Js.trim v) as [|c0 r] eqn:Htrim.
  - rewrite (validateField_blank b j d e v) by done.
    eexists _, (λ l, removeFirstError (el_parent e) l ++ [_]).
    split_and!; [done | reflexivity |]. right. by eexists _, _.
  - rewrite (validateField_filled b j d e v) by congruence.
    eexists _, _. split_and!; [done | reflexivity |]. by left.
Qed.

Lemma textOrFileRule_errors (form : nat) (b : bool) (d : Doc) :
  fieldErrors (final (textOrFileRule form b d)) = fieldErrors d.
Proof.
  unfold textOrFileRule, trimmedValue, getElement, updateElement.
  exec_cases; done.
Qed.

Lemma foldM_final_inv_in {A B} (f : B → A → Exec B) (I : Doc → Prop) (l : list A) :
  (∀ b x d, x ∈ l → I d → I (final (f b x d))) →
  ∀ b d, I d → I (final (foldM f b l d)).
Proof.
  induction l as [|x l IH]; intros Hf b d Hd; [done |].
  simpl. exec_unfold. pose proof (Hf b x d ltac:(by left) Hd) as Hx.
  destruct (f b x d) as [b1 d1 | err d1]; simpl in *; [| done].
  apply IH; [| done]. intros b' y d' Hy. apply Hf. by right.
Qed.

Lemma elem_of_requiredParents (form : nat) (d : Doc) (p : Path) :
  p ∈ requiredParents form d
  ↔ ∃ j e, j ∈ querySelectorAll (within form isRequired) d
           ∧ elements d !! j = Some e ∧ el_parent e = p.
Proof.
  unfold requiredParents. rewrite list_elem_of_omap. split.
  - intros (j & Hj & Hp). destruct (elements d !! j) as [e|] eqn:He; [| done].
    exists j, e. by simplify_eq/=.
  - intros (j & e & Hj & He & <-). exists j. by rewrite He.
Qed.

(** Validation does not stack messages as long as the parents of the
    required fields of the form are not nested in one another: when each
    of them holds at most one error div before [validateForm] or the
    submit listener runs, it does so afterwards, whether or not the run
    completes.  With nested parents messages do stack: on a form with a
    blank required input directly in it and another inside a div, the
    second submit removes the error div inside the div, which is the
    first one inside the form, and leaves two error divs that are
    children of the form. *)
Theorem one_error_per_parent :
  (∀ (d : Doc) (form : nat),
     (∀ p q, p ∈ requiredParents form d → q ∈ requiredParents form d →
             contains p q = true → p = q) →
     (∀ p, p ∈ requiredParents form d → errorsUnder p (fieldErrors d) ≤ 1) →
     (∀ p, p ∈ requiredParents form d →
           errorsUnder p (fieldErrors (final (validateForm form d))) ≤ 1)
     ∧ (∀ p, p ∈ requiredParents form d →
             errorsUnder p (fieldErrors (final (submitValidate form d))) ≤ 1))
  ∧ (let once := final (submitValidate 0 nestedPage) in
     let twice := final (submitValidate 0 once) in
     fieldErrors once
     = [mkFieldError [0] 2 "This field is required";
        mkFieldError [0; 1] 0 "This field is required"]
     ∧ fieldErrors twice
       = [mkFieldError [0] 2 "This field is required";
          mkFieldError [0] 3 "This field is required";
          mkFieldError [0; 1] 0 "This field is required"]).
Proof.
  split; [| vm_compute; split; reflexivity].
  intros d form Hflat Hd.
  set (I := λ d0 : Doc,
         (∀ i, el_parent <$> elements d0 !! i = el_parent <$> elements d !! i)
         ∧ ∀ p, p ∈ requiredParents form d → errorsUnder p (fieldErrors d0) ≤ 1).
  assert (∀ b j d0, j ∈ querySelectorAll (within form isRequired) d →
                    I d0 → I (final (validateField b j d0))) as Hstep.
  { intros b j d0 Hj [Hsame H0].
    destruct (validateField_cases b j d0) as [-> | (e0 & c & g & He0 & -> & Hg)]; [done |].
    assert (el_parent e0 ∈ requiredParents form d) as Hq.
    { apply elem_of_requiredParents. specialize (Hsame j). rewrite He0 in Hsame.
      destruct (elements d !! j) as [e|] eqn:He; [| done].
      exists j, e. simplify_eq/=. done. }
    split.
    - intros i. rewrite <- Hsame. simpl. destruct (decide (i = j)) as [-> | Hne].
      + rewrite list_lookup_alter_eq. by destruct (elements d0 !! j).
      + by rewrite list_lookup_alter_ne.
    - intros p Hp. simpl. specialize (H0 p Hp).
      destruct Hg as [-> | (k & m & ->)].
      + pose proof (errorsUnder_remove_le (el_parent e0) p (fieldErrors d0)). lia.
      + rewrite errorsUnder_app, errorsUnder_cons. cbn [fe_parent].
        destruct (contains p (el_parent e0)) eqn:Hpq.
        * rewrite (Hflat p (el_parent e0) Hp Hq Hpq), errorsUnder_remove_same.
          rewrite (Hflat p (el_parent e0) Hp Hq Hpq) in H0. unfold errorsUnder at 2.
          simpl. lia.
        * pose proof (errorsUnder_remove_le (el_parent e0) p (fieldErrors d0)).
          unfold errorsUnder at 2. simpl. lia. }
  assert (∀ p, p ∈ requiredParents form d →
               errorsUnder p (fieldErrors (final (validateForm form d))) ≤ 1) as Hvalidate.
  { unfold validateForm. exec_unfold. cbn [id].
    pose proof (foldM_final_inv_in validateField I
                  (querySelectorAll (within form isRequired) d)
                  (λ b x d0 Hx, Hstep b x d0 Hx) true d) as Hloop.
    specialize (Hloop (conj (λ i, eq_refl) Hd)).
    destruct (foldM validateField true _ d) as [ok d1 | err d1]; cbn [final] in Hloop;
      [| exact (proj2 Hloop)].
    unfold getAction. destruct (forms d1 !! form) as [a|]; [| exact (proj2 Hloop)].
    destruct (isAnalyze a); [| exact (proj2 Hloop)].
    intros p Hp. rewrite textOrFileRule_errors. by apply Hloop. }
  split; [exact Hvalidate |].
  unfold submitValidate. exec_unfold.
  destruct (validateForm form d) as [ok d1 | err d1]; cbn [final] in Hvalidate;
    [| exact Hvalidate].
  destruct ok; cbn [negb]; [exact Hvalidate |].
  unfold getAction. destruct (forms d1 !! form) as [a|]; [| exact Hvalidate].
  destruct (isAnalyze a); exact Hvalidate.
Qed.

Lemma one_error_per_parent_witness :
  errorsUnder [5] (fieldErrors (final (validateForm 0 sharedParentPage))) ≤ 1
  ∧ errorsUnder [5] (fieldErrors (final (submitValidate 0 sharedParentPage))) ≤ 1.
Proof.
  destruct one_error_per_parent as [Hflat _].
  assert ([5] ∈ requiredParents 0 sharedParentPage) as Hin by (by left).
  destruct (Hflat sharedParentPage 0) as [Hvalidate Hsubmit].
  - intros p q Hp Hq _.
    assert (∀ r, r ∈ requiredParents 0 sharedParentPage → r = [5]) as Hall.
    { intros r Hr. change (requiredParents 0 sharedParentPage) with [[5]; [5]] in Hr.
      by repeat (apply elem_of_cons in Hr as [-> | Hr]; [done |]); apply elem_of_nil in Hr. }
    by rewrite (Hall p Hp), (Hall q Hq).
  - intros p _. unfold errorsUnder. simpl. lia.
  - split; [by apply Hvalidate | by apply Hsubmit].
Defined.

(** [clearFieldError] undoes [showFieldError]: on a field whose parent
    held no error div, showing and then clearing leaves the error divs as
    they were and the border reset. *)
Theorem show_then_clear (d : Doc) (field : nat) (e : Element) (message : string) :
  elements d !! field = Some e →
  errorsUnder (el_parent e) (fieldErrors d) = 0 →
  (showFieldError field message;; clearFieldError field) d
  = Normal tt (set_elements (alter (with_borderColor "") field) d).
Proof.
  intros He Hnone. unfold showFieldError, clearFieldError, updateElement. exec_unfold.
  rewrite (getElement_Some _ _ _ He).
  erewrite (getElement_Some field _ (with_borderColor "" e)) by (by apply lookup_alter_eq).
  erewrite (getElement_Some field _ (with_borderColor "#e74c3c" (with_borderColor "" e))).
  2: { unfold appendErrorDiv. cbn [set_fieldErrors set_elements elements].
       rewrite !list_lookup_alter_eq, He. done. }
  unfold appendErrorDiv.
  destruct d as [fs els errs tc tags dds notes up decs ls].
  cbn [fieldErrors elements] in He, Hnone.
  unfold set_elements, set_fieldErrors. cbn. do 2 f_equal.
  - rewrite !list_alter_alter_eq. apply list_alter_ext; [| done]. by intros [].
  - rewrite (removeFirstError_none _ errs Hnone).
    apply removeFirstError_snoc; [done | apply contains_refl].
Qed.

Lemma show_then_clear_witness :
  (showFieldError 0 "This field is required";; clearFieldError 0) matchPage
  = Normal tt (set_elements (alter (with_borderColor "") 0) matchPage).
Proof.
  apply (show_then_clear matchPage 0
           (mkElement KInput "" "user_skills" (Some 0) [7] true "  " [] "")).
  - reflexivity.
  - reflexivity.
Defined.

(** ** Submit of the analyze form *)








(** ** Clearing the chosen file *)

Lemma onFileChange_cases (d : Doc) (this : nat) (e : Element) (file : File) (rest : list File) :
  elements d !! this = Some e → kind e = KFileInput → file_list e = file :: rest →
  onFileChange this d
  = if negb (nameAllowed (file_name file)) then
      Normal tt (set_elements (alter (with_file_list []) this)
        (set_notifications
           (λ l, l ++ [mkNotification "Only PDF or DOCX files are accepted." "error"]) d))
    else if (maxFileSize <? file_size file)%N then
      Normal tt (set_elements (alter (with_file_list []) this)
        (set_notifications
           (λ l, l ++ [mkNotification "File is too large (max 8MB)." "error"]) d))
    else
      Normal tt (set_upload closeFab (set_upload (showBadge (file_name file))
        (set_notifications
           (λ l, l ++ [mkNotification ("File selected: " +:+ file_name file) "success"]) d))).
Proof.
  intros He Hk Hfiles. unfold onFileChange. exec_unfold.
  rewrite (getElement_Some _ _ _ He), (files_chooser e Hk), Hfiles.
  destruct (nameAllowed (file_name file)); cbn [negb].
  - destruct (maxFileSize <? file_size file)%N; [| done].
    unfold showNotification. exec_unfold. by erewrite clear_chooser.
  - unfold showNotification. exec_unfold. by erewrite clear_chooser.
Qed.

Lemma remove_click_outcome (d : Doc) :
  ∃ d', onDocumentClick true d = Normal tt d'
        ∧ hasFileOf (querySelector isCvFile d) d' = false
        ∧ (∀ j, querySelector isCvFile d ≠ Some j → elements d' !! j = elements d !! j).
Proof.
  unfold onDocumentClick, showNotification. exec_unfold. cbn [negb id].
  destruct (querySelector isCvFile d) as [j|] eqn:Hq.
  - apply querySelector_Some in Hq as (e & He & _).
    unfold setValue, updateElement. exec_unfold. rewrite (getElement_Some _ _ _ He).
    destruct (kind e) eqn:Hk; cbn; eexists; split_and!; try reflexivity;
      try (intros k Hk'; cbn; rewrite list_lookup_alter_ne by congruence; reflexivity);
      cbn; rewrite list_lookup_alter_eq, He; cbn; unfold files; cbn; by rewrite Hk.
  - cbn. eexists. split_and!; try reflexivity.
Qed.

(** The click listener of the document never throws.  A click outside the
    remove control changes nothing; a click on it leaves the chooser
    without a file, hides the badge and empties the file name where these
    elements exist, shows one info notification and touches no other
    element. *)
Theorem remove_click (d : Doc) :
  onDocumentClick false d = Normal tt d
  ∧ ∃ d', onDocumentClick true d = Normal tt d'
          ∧ hasFileOf (querySelector isCvFile d) d' = false
          ∧ badgeDisplay (upload d')
            = match badgeDisplay (upload d) with Some _ => Some "none" | None => None end
          ∧ fileNameText (upload d')
            = match fileNameText (upload d) with Some _ => Some "" | None => None end
          ∧ fabOpen (upload d') = fabOpen (upload d)
          ∧ notifications d'
            = notifications d
              ++ [mkNotification "File removed. You can upload a different file." "info"]
          ∧ (∀ j, querySelector isCvFile d ≠ Some j → elements d' !! j = elements d !! j)
          ∧ skillTags d' = skillTags d ∧ fieldErrors d' = fieldErrors d.
Proof.
  split; [reflexivity |].
  unfold onDocumentClick, showNotification. exec_unfold. cbn [negb id].
  destruct (querySelector isCvFile d) as [j|] eqn:Hq.
  - apply querySelector_Some in Hq as (e & He & _).
    unfold setValue, updateElement. exec_unfold. rewrite (getElement_Some _ _ _ He).
    destruct (kind e) eqn:Hk; cbn; eexists; split_and!; try reflexivity;
      try (intros k Hk'; cbn; rewrite list_lookup_alter_ne by congruence; reflexivity);
      cbn; rewrite list_lookup_alter_eq, He; cbn; unfold files; cbn; by rewrite Hk.
  - cbn. eexists. split_and!; try reflexivity.
Qed.

Lemma remove_click_witness :
  let shown := final (onFileChange 1 (chosen "cv.pdf" 100)) in
  badgeDisplay (upload shown) = Some "inline-flex"
  ∧ fileNameText (upload shown) = Some "cv.pdf"
  ∧ hasFileOf (Some 1) shown = true
  ∧ ∃ d', onDocumentClick true shown = Normal tt d'
          ∧ hasFileOf (Some 1) d' = false
          ∧ badgeDisplay (upload d') = Some "none"
          ∧ fileNameText (upload d') = Some "".
Proof.
  intros shown. split_and!; [reflexivity .. |].
  destruct (remove_click shown) as (_ & d' & Hrun & Hfile & Hbadge & Hname & _).
  exists d'. split_and!; [exact Hrun | exact Hfile | exact Hbadge | exact Hname].
Defined.

(** A file that is rejected when it is selected, or accepted and then
    removed through the badge, leaves the marker of an empty textarea
    stale: [syncRequired] ran on the change event while the file was still
    selected, and clearing the chooser from the script fires no event.
    The textarea stays without [required], with neither text nor file,
    until [syncRequired] runs again. *)
Theorem marker_stale_after_clearing (d : Doc) (ta cf : nat) (e f : Element)
    (file : File) (rest : list File) :
  elements d !! ta = Some e → kind e = KTextarea → Js.trim (text e) = "" →
  elements d !! cf = Some f → kind f = KFileInput → file_list f = file :: rest →
  querySelector isCvFile d = Some cf →
  let changed := final ((syncRequired ta (Some cf);; onFileChange cf) d) in
  let kept := nameAllowed (file_name file) && negb (maxFileSize <? file_size file)%N in
  let cleared := if kept then final (onDocumentClick true changed) else changed in
  hasFileOf (Some cf) changed = kept
  ∧ requiredAt cleared ta = Some false
  ∧ (text <$> elements cleared !! ta) = Some (text e)
  ∧ hasFileOf (Some cf) cleared = false
  ∧ requiredAt (final (syncRequired ta (Some cf) cleared)) ta = Some true.
Proof.
  intros He Hk Hblank Hf Hkf Hfiles Hq changed kept cleared.
  assert (ta ≠ cf) as Hne by (intros ->; congruence).
  set (d1 := set_elements (alter (with_required false) ta) d).
  assert (syncRequired ta (Some cf) d = Normal tt d1) as Hsync.
  { unfold syncRequired. exec_unfold.
    rewrite (trimmedValue_ok d ta e (text e)) by auto using value_textarea.
    cbn [id]. unfold hasFileOf. rewrite Hf, (files_chooser f Hkf), Hfiles.
    by rewrite orb_true_r. }
  assert (elements d1 !! cf = Some f) as Hf1.
  { subst d1. cbn [elements set_elements]. by rewrite list_lookup_alter_ne. }
  assert (elements d1 !! ta = Some (with_required false e)) as He1
    by (by apply lookup_alter_eq).
  assert (querySelector isCvFile d1 = Some cf) as Hq1.
  { subst d1. by rewrite querySelector_alter. }
  assert (∀ d0 e0, elements d0 !! ta = Some e0 → kind e0 = KTextarea → text e0 = text e →
            hasFileOf (Some cf) d0 = false →
            requiredAt (final (syncRequired ta (Some cf) d0)) ta = Some true) as Hrepair.
  { intros d0 e0 He0 Hk0 Ht0 Hno. unfold syncRequired. exec_unfold.
    rewrite (trimmedValue_ok d0 ta e0 (text e0)) by auto using value_textarea.
    cbn [id]. rewrite Ht0, Hblank, Hno. cbn. unfold requiredAt. cbn.
    by rewrite list_lookup_alter_eq, He0. }
  assert (changed = final (onFileChange cf d1)) as Hchanged.
  { subst changed. exec_unfold. by rewrite Hsync. }
  rewrite (onFileChange_cases d1 cf f file rest Hf1 Hkf Hfiles) in Hchanged.
  subst kept cleared.
  destruct (nameAllowed (file_name file)); cbn [negb andb] in *;
    [destruct (maxFileSize <? file_size file)%N; cbn [negb] in * |].
  - (* too large *)
    cbn [final] in Hchanged. rewrite Hchanged. cbn -[d1].
    rewrite list_lookup_alter_eq, Hf1. unfold requiredAt. cbn -[d1].
    rewrite list_lookup_alter_ne, He1 by done. cbn.
    unfold files. cbn. rewrite Hkf. split_and!; try done.
    apply (Hrepair _ (with_required false e)); try done.
    + cbn -[d1]. by rewrite list_lookup_alter_ne, He1.
    + unfold hasFileOf. cbn -[d1]. rewrite list_lookup_alter_eq, Hf1. cbn.
      unfold files. cbn. by rewrite Hkf.
  - (* kept, then removed through the badge *)
    cbn [final] in Hchanged.
    assert (elements changed = elements d1) as Hels by (by rewrite Hchanged).
    assert (hasFileOf (Some cf) changed = true) as Hhas.
    { unfold hasFileOf. rewrite Hels, Hf1, (files_chooser f Hkf), Hfiles. done. }
    assert (querySelector isCvFile changed = Some cf) as Hqc.
    { unfold querySelector in *. by rewrite Hels. }
    destruct (remove_click_outcome changed) as (d' & Hrun & Hno & Hother).
    rewrite Hrun. cbn [final]. rewrite Hqc in Hno.
    assert (elements d' !! ta = Some (with_required false e)) as He'.
    { rewrite Hother by (rewrite Hqc; congruence). by rewrite Hels. }
    unfold requiredAt. rewrite He'. split_and!; try done.
    by apply (Hrepair d' (with_required false e)).
  - (* wrong type *)
    cbn [final] in Hchanged. rewrite Hchanged. cbn -[d1].
    rewrite list_lookup_alter_eq, Hf1. unfold requiredAt. cbn -[d1].
    rewrite list_lookup_alter_ne, He1 by done. cbn.
    unfold files. cbn. rewrite Hkf. split_and!; try done.
    apply (Hrepair _ (with_required false e)); try done.
    + cbn -[d1]. by rewrite list_lookup_alter_ne, He1.
    + unfold hasFileOf. cbn -[d1]. rewrite list_lookup_alter_eq, Hf1. cbn.
      unfold files. cbn. by rewrite Hkf.
Qed.

Lemma marker_stale_after_clearing_witness :
  let e := mkElement KTextarea "" "cv_text" (Some 0) [1] true "" [] "" in
  let file := mkFile "cv.pdf" 100 in
  let changed := final ((syncRequired 0 (Some 1);; onFileChange 1) (chosen "cv.pdf" 100)) in
  let kept := nameAllowed (file_name file) && negb (maxFileSize <? file_size file)%N in
  let cleared := if kept then final (onDocumentClick true changed) else changed in
  hasFileOf (Some 1) changed = kept
  ∧ requiredAt cleared 0 = Some false
  ∧ (text <$> elements cleared !! 0) = Some (text e)
  ∧ hasFileOf (Some 1) cleared = false
  ∧ requiredAt (final (syncRequired 0 (Some 1) cleared)) 0 = Some true.
Proof.
  intros e file.
  apply (marker_stale_after_clearing (chosen "cv.pdf" 100) 0 1 e
           (mkElement KFileInput "cv_file" "cv_file" (Some 0) [2] false ""
                      [mkFile "cv.pdf" 100] "")
           file []); reflexivity.
Defined.

(** ** Which initialisers can throw *)

Lemma setupForm_frame (form : nat) (d : Doc) :
  forms (final (setupForm form d)) = forms d
  ∧ elements (final (setupForm form d)) = elements d.
Proof.
  unfold setupForm, getAction, addEventListener. exec_cases; done.
Qed.

Lemma setupForm_completes_inv (form : nat) (d : Doc) :
  form < length (forms d) → completes (setupForm form d) = true → formComplete d form.
Proof.
  intros Hlt Hdone. apply lookup_lt_is_Some in Hlt as [a Ha].
  exists a. split; [done |]. intros Han.
  destruct (querySelector (within form isCvTextarea) d) as [ta|] eqn:Hta.
  - destruct (querySelector (within form isCvFile) d) as [cf|] eqn:Hcf; [by split |].
    rewrite (setupForm_throws d form a) in Hdone by auto. done.
  - rewrite (setupForm_throws d form a) in Hdone by auto. done.
Qed.

Lemma formComplete_frame (d d0 : Doc) (i : nat) :
  forms d0 = forms d → elements d0 = elements d → formComplete d0 i ↔ formComplete d i.
Proof. intros Hf He. unfold formComplete, querySelector. by rewrite Hf, He. Qed.

(** [initializeFormValidation] completes exactly on the pages where every
    form with action /analyze contains both a CV textarea and an element
    with the id [cv_file]; it throws when either is missing from such a
    form. *)
Theorem form_setup_completes_iff (d : Doc) :
  completes (initializeFormValidation d) = true
  ↔ ∀ i a, forms d !! i = Some a → isAnalyze a = true →
           is_Some (querySelector (within i isCvTextarea) d)
           ∧ is_Some (querySelector (within i isCvFile) d).
Proof.
  assert ((∀ i, i < length (forms d) → formComplete d i)
          ↔ ∀ i a, forms d !! i = Some a → isAnalyze a = true →
                   is_Some (querySelector (within i isCvTextarea) d)
                   ∧ is_Some (querySelector (within i isCvFile) d)) as <-.
  { split.
    - intros H i a Hi Ha. destruct (H i) as (a' & Hi' & Hparts).
      + by eapply lookup_lt_Some.
      + simplify_eq. by apply Hparts.
    - intros H i Hi. apply lookup_lt_is_Some in Hi as [a Ha].
      exists a. split; [done |]. by apply H. }
  split; [| by intros H; apply initializeFormValidation_completes].
  unfold initializeFormValidation. exec_unfold. cbn [id].
  assert (∀ l d0, forms d0 = forms d → elements d0 = elements d →
            (∀ i, i ∈ l → i < length (forms d)) →
            completes (forEach setupForm l d0) = true →
            ∀ i, i ∈ l → formComplete d i) as Hloop.
  { induction l as [|x l IH]; intros d0 Hf He Hl Hdone i Hi.
    { by apply elem_of_nil in Hi. }
    unfold forEach in *. cbn [foldM] in Hdone. exec_unfold.
    destruct (setupForm_frame x d0) as [Hf1 He1].
    pose proof (setupForm_completes_inv x d0) as Hinv.
    destruct (setupForm x d0) as [[] d1 | err d1]; cbn [final completes] in *; [| done].
    apply elem_of_cons in Hi as [-> | Hi].
    - apply (formComplete_frame d d0 x Hf He). apply Hinv; [| done].
      rewrite Hf. apply Hl. by left.
    - apply (IH d1); [congruence | congruence | | done | done].
      intros k Hk. apply Hl. by right. }
  intros Hdone i Hi. apply (Hloop (seq 0 (length (forms d))) d eq_refl eq_refl).
  - intros k Hk. apply elem_of_seq in Hk. lia.
  - exact Hdone.
  - apply elem_of_seq. lia.
Qed.

(** [initializeCVAnalysis] throws exactly on the pages that have a CV
    textarea and no form with action /analyze; it has then already added
    the character counter and its listener.  On every other page it
    completes. *)
Theorem cv_setup_throws_iff (d : Doc) :
  (completes (initializeCVAnalysis d) = false
   ↔ is_Some (querySelector isCvTextarea d) ∧ Forall (λ a, isAnalyze a = false) (forms d))
  ∧ (completes (initializeCVAnalysis d) = false →
     ∃ ta e,
       querySelector isCvTextarea d = Some ta ∧ elements d !! ta = Some e
       ∧ decorations (final (initializeCVAnalysis d))
         = decorations d ++ [CharCounter (el_parent e)]
       ∧ listeners (final (initializeCVAnalysis d))
         = listeners d ++ [mkListener (OnElement ta) EvInput (HCharCounter (el_parent e))]).
Proof.
  unfold initializeCVAnalysis. exec_unfold. cbn [id].
  destruct (querySelector isCvTextarea d) as [ta|] eqn:Hq.
  - apply querySelector_Some in Hq as (e & He & _).
    rewrite (getElement_Some _ _ _ He). unfold addEventListener. exec_unfold.
    unfold showCVTips. exec_unfold. cbn [id forms set_decorations set_listeners].
    destruct (list_find (λ a, Is_true (isAnalyze a)) (forms d)) as [[i a]|] eqn:Hfind.
    + cbn. split; [| done]. split; [done |]. intros [_ Hnone].
      apply list_find_Some in Hfind as (Hi & Ha & _).
      rewrite Forall_forall in Hnone. apply list_elem_of_lookup_2 in Hi.
      rewrite (Hnone a Hi) in Ha. done.
    + cbn. split; [| by eauto 10]. split; [| done]. intros _. split; [by eexists |].
      apply list_find_None in Hfind. eapply Forall_impl; [exact Hfind |].
      intros a Ha. cbv beta in Ha. destruct (isAnalyze a); [| done].
      exfalso. apply Ha. exact I.
  - cbn. split; [| done]. split; [done |]. by intros [[? ?] _].
Qed.

Lemma form_setup_completes_iff_witness :
  completes (initializeFormValidation analyzePage) = true
  ∧ completes (initializeFormValidation pageWithoutChooser) = false
  ∧ completes (initializeFormValidation (set_elements (λ _, []) analyzePage)) = false.
Proof.
  split_and!.
  - apply (form_setup_completes_iff analyzePage). intros i a Hi _.
    destruct i as [|i]; [| done]. split; by eexists.
  - apply not_true_is_false. intros H.
    destruct (proj1 (form_setup_completes_iff pageWithoutChooser) H
                0 (Some "/analyze") eq_refl eq_refl) as [_ [cf Hcf]].
    discriminate Hcf.
  - apply not_true_is_false. intros H.
    destruct (proj1 (form_setup_completes_iff (set_elements (λ _, []) analyzePage)) H
                0 (Some "/analyze") eq_refl eq_refl) as [[ta Hta] _].
    discriminate Hta.
Defined.

Lemma cv_setup_throws_iff_witness :
  completes (initializeCVAnalysis pageWithoutAnalyzeForm) = false
  ∧ decorations (final (initializeCVAnalysis pageWithoutAnalyzeForm)) = [CharCounter [1]].
Proof.
  destruct (cv_setup_throws_iff pageWithoutAnalyzeForm) as [[_ Hthrows] Hcounter].
  assert (completes (initializeCVAnalysis pageWithoutAnalyzeForm) = false) as H.
  { apply Hthrows. split; [by eexists | by repeat constructor]. }
  split; [exact H |].
  destruct (Hcounter H) as (ta & e & Hq & He & Hdecs & _).
  injection Hq as <-. injection He as <-. exact Hdecs.
Defined.

(** ** Skills assessment *)



